(** * tpclash: the runtime supervisor of [main.go]

    A shallow embedding of [rootCmd.Run]: the start-up path, the goroutine
    that reloads the engine on every later configuration, and the shutdown
    path.  Every call that leaves the program (logging, the file system,
    the child process, the proxy mode, the HTTP client, the context) is
    recorded as an [Event]; what the outside answers is read from a
    [World].  The repository's functions that live in other files
    ([CheckConfig], [AutoFix], the constants) are parameters. *)

From Stdlib Require Import String Ascii List ZArith Bool Lia.
From stdpp Require Import base option gmap strings.
Import ListNotations.

Local Open Scope string_scope.
Local Open Scope Z_scope.
Local Open Scope list_scope.

(** ** Data *)

(** Go's [error], reduced to its message. *)
Definition error := string.

(** logrus levels used by [main.go]. *)
Inductive Level := FatalLevel | ErrorLevel | InfoLevel | DebugLevel.

(** Operands of a format string. *)
Inductive Arg :=
| AStr (s : string)
| AInt (z : Z)
| AStrs (l : list string).

(** The flags bound in [init]. *)
Record TPClashConf := {
  Debug : bool;
  ClashHome : string;
  ClashConfig : string;
  ClashUI : string;
  CheckInterval : Z;
  HttpHeader : list string;
  DisableExtract : bool;
  PrintVersion : bool
}.

(** The two fields of a checked clash configuration that [Run] reads. *)
Record ClashConf := {
  ExternalController : string;
  Secret : string
}.

(** [http.Request] and [http.Response], as far as [Run] touches them. *)
Record Request := {
  Method : string;
  URL : string;
  Header : list (string * string);
  Body : string
}.

Record Response := {
  StatusCode : Z;
  RespBody : string
}.

(** What [os.WriteFile] can do: write all of it, fail to open the file
    (nothing changes), or fail after the file was truncated and [n] bytes
    were written. *)
Inductive WriteOutcome :=
| WriteOk
| OpenErr (e : error)
| ShortWrite (e : error) (n : nat).

(** The interface returned by [NewProxyMode]. *)
Record ProxyMode := {
  EnableProxy : option error;
  DisableProxy : option error
}.

(** The signals handed to [signal.NotifyContext]. *)
Inductive Signal := SIGINT | SIGTERM | SIGHUP.

(** ** Events *)

Inductive Event :=
| EvPrintf (format : string) (args : list Arg)
| EvSetLevel (l : Level)
| EvLog (l : Level) (format : string) (args : list Arg)
| EvSysctl
| EvExtractFiles
| EvWatchConfig
| EvRecv (v : string)
| EvWriteFile (name data : string) (r : WriteOutcome)
| EvStart (args : list string) (r : option error)
| EvCancel
| EvNewProxyMode (r : option error)
| EvEnableProxy (r : option error)
| EvDisableProxy (r : option error)
| EvKill (r : option error)
| EvGo
| EvDone
| EvDo (req : Request)
| EvDoReturn (r : Response + error)
| EvReadBody (b : string).

(** ** What [main.go] takes from elsewhere

    The functions and constants of package [main] that other files of the
    repository define, Go's [filepath.Join] on two elements, and the error
    of [url.Parse] behind [http.NewRequest]. *)

Record Package := {
  CheckConfig : string -> ClashConf + error;
  AutoFix : string -> string;
  InternalConfigName : string;
  InternalClashBinName : string;
  logo : string;
  version : string;
  build : string;
  clash : string;
  commit : string;
  filepath_Join : string -> string -> string;
  url_Parse_err : string -> option error
}.

(** ** The outside world *)

Record World := {
  conf : TPClashConf;
  (** [Sysctl], [ExtractFiles] and [WatchConfig] either return or end the
      process with a fatal log of their own. *)
  Sysctl_fatal : option error;
  ExtractFiles_fatal : option error;
  WatchConfig_fatal : option error;
  (** what each of them does to the files before it returns or exits *)
  Sysctl_effect : gmap string string -> gmap string string;
  ExtractFiles_effect : gmap string string -> gmap string string;
  WatchConfig_effect : gmap string string -> gmap string string;
  (** the values received from [updateCh] while the process lives, in the
      order the watcher sent them; the channel is never closed *)
  updateCh : list string;
  (** the outcome of the k-th [os.WriteFile] *)
  WriteFile_outcome : nat -> WriteOutcome;
  (** [cmd.Start]: its error and [cmd.Process] afterwards *)
  Start_err : option error;
  Start_Process : option Z;
  NewProxyMode_result : ProxyMode + error;
  Kill_err : option error;
  (** the answer of the k-th [cli.Do] *)
  Do_result : nat -> Request -> Response + error;
  (** the signal delivered to the process, if any *)
  signal : option Signal
}.

(** ** State and monad *)

(** [trace] is what the main goroutine did, [go_trace] what the reload
    goroutine did; [disk] maps a file name to its content; [writes] and
    [requests] count the calls of [os.WriteFile] and [cli.Do]; [chan] is
    what is left on [updateCh]; [cancelled] tells whether [cancel] ran. *)
Record St := {
  trace : list Event;
  go_trace : list Event;
  disk : gmap string string;
  writes : nat;
  requests : nat;
  chan : list string;
  cancelled : bool
}.

Definition set_trace (t : list Event) (s : St) : St :=
  {| trace := t; go_trace := go_trace s; disk := disk s; writes := writes s;
     requests := requests s; chan := chan s; cancelled := cancelled s |}.

Definition set_chan (c : list string) (s : St) : St :=
  {| trace := trace s; go_trace := go_trace s; disk := disk s;
     writes := writes s; requests := requests s; chan := c;
     cancelled := cancelled s |}.

Definition set_cancelled (s : St) : St :=
  {| trace := trace s; go_trace := go_trace s; disk := disk s;
     writes := writes s; requests := requests s; chan := chan s;
     cancelled := true |}.

(** A goroutine returns a value, ends the process ([os.Exit]), or blocks
    for good. *)
Inductive Res (A : Type) :=
| Val (a : A)
| Exited (code : Z)
| Blocked.
Arguments Val {A} a.
Arguments Exited {A} code.
Arguments Blocked {A}.

Definition M (A : Type) := St -> Res A * St.

Definition ret {A} (a : A) : M A := fun s => (Val a, s).

Definition bind {A B} (m : M A) (k : A -> M B) : M B :=
  fun s =>
    match m s with
    | (Val a, s') => k a s'
    | (Exited c, s') => (Exited c, s')
    | (Blocked, s') => (Blocked, s')
    end.

Notation "x <- m ;; k" := (bind m (fun x => k))
  (at level 100, m at next level, right associativity).
Notation "m >> k" := (bind m (fun _ => k))
  (at level 100, k at level 200, right associativity).

(** The state a computation leaves. *)
Definition exec {A} (m : M A) (s : St) : St := snd (m s).

Definition emit (e : Event) : M unit :=
  fun s => (Val tt, set_trace (trace s ++ [e]) s).

Definition exit {A} (code : Z) : M A := fun s => (Exited code, s).

Definition block {A} : M A := fun s => (Blocked, s).

(** ** Strings *)

Definition nl : string := String "010"%char EmptyString.
Definition dquote : string := String "034"%char EmptyString.

(** [fmt.Sprintf(`{"path": "%s"}`, p)] *)
Definition Sprintf_path (p : string) : string :=
  "{" +:+ dquote +:+ "path" +:+ dquote +:+ ": " +:+ dquote +:+ p +:+ dquote +:+ "}".

(** the first [n] bytes of [s] *)
Definition prefix_of (n : nat) (s : string) : string := String.substring 0 n s.

(** ** The program *)

Section Supervisor.

Variable pkg : Package.
Variable w : World.

(** *** Primitives *)

Definition logf (l : Level) (format : string) (args : list Arg) : M unit :=
  emit (EvLog l format args).

(** [logrus.Fatal] and [logrus.Fatalf]: log, then [os.Exit(1)]. *)
Definition fatalf {A} (format : string) (args : list Arg) : M A :=
  logf FatalLevel format args >> exit 1.

(** A call into another file of the repository: it does to the files what
    the world says, and may end the process. *)
Definition call (e : Event)
    (effect : gmap string string -> gmap string string)
    (r : option error) : M unit :=
  emit e >>
  (fun s =>
     (Val tt,
      {| trace := trace s; go_trace := go_trace s; disk := effect (disk s);
         writes := writes s; requests := requests s; chan := chan s;
         cancelled := cancelled s |})) >>
  match r with
  | Some _ => exit 1
  | None => ret tt
  end.

(** [<-updateCh]: take the next value, or wait for one. *)
Definition recv : M string :=
  fun s =>
    match chan s with
    | v :: rest => (Val v, set_chan rest (set_trace (trace s ++ [EvRecv v]) s))
    | [] => (Blocked, s)
    end.

Definition write_result (r : WriteOutcome) : option error :=
  match r with
  | WriteOk => None
  | OpenErr e => Some e
  | ShortWrite e _ => Some e
  end.

Definition write_disk (r : WriteOutcome) (name data : string)
    (d : gmap string string) : gmap string string :=
  match r with
  | WriteOk => <[name := data]> d
  | OpenErr _ => d
  | ShortWrite _ n => <[name := prefix_of n data]> d
  end.

(** [os.WriteFile(name, data, 0644)] *)
Definition WriteFile (name data : string) : M (option error) :=
  fun s =>
    let r := WriteFile_outcome w (writes s) in
    (Val (write_result r),
     {| trace := trace s ++ [EvWriteFile name data r];
        go_trace := go_trace s;
        disk := write_disk r name data (disk s);
        writes := S (writes s);
        requests := requests s;
        chan := chan s;
        cancelled := cancelled s |}).

(** [cancel()] *)
Definition cancel : M unit :=
  fun s => (Val tt, set_cancelled (set_trace (trace s ++ [EvCancel]) s)).

(** [<-ctx.Done()]: returns once [cancel] ran or a signal came. *)
Definition wait_Done : M unit :=
  fun s =>
    if cancelled s then emit EvDone s
    else match signal w with
         | Some _ => emit EvDone s
         | None => (Blocked, s)
         end.

(** [http.NewRequest(method, url, body)] *)
Definition NewRequest (method url body : string) : Request + error :=
  match url_Parse_err pkg url with
  | Some e => inr e
  | None => inl {| Method := method; URL := url; Header := []; Body := body |}
  end.

(** [req.Header.Set(key, value)] *)
Definition Header_Set (key value : string) (req : Request) : Request :=
  {| Method := Method req;
     URL := URL req;
     Header := (key, value)
                 :: List.filter (fun kv => negb (String.eqb (fst kv) key)) (Header req);
     Body := Body req |}.

(** [req.Header.Get(key)] *)
Definition Header_Get (key : string) (req : Request) : option string :=
  match List.filter (fun kv => String.eqb (fst kv) key) (Header req) with
  | kv :: _ => Some (snd kv)
  | [] => None
  end.

(** [cli.Do(req)]: the request leaves, the answer comes back. *)
Definition Do (req : Request) : M (Response + error) :=
  fun s =>
    let r := Do_result w (requests s) req in
    (Val r,
     {| trace := trace s ++ [EvDo req; EvDoReturn r];
        go_trace := go_trace s;
        disk := disk s;
        writes := writes s;
        requests := S (requests s);
        chan := chan s;
        cancelled := cancelled s |}).

(** *** Paths *)

Definition clashConfPath : string :=
  filepath_Join pkg (ClashHome (conf w)) (InternalConfigName pkg).
Definition ClashUIPath : string :=
  filepath_Join pkg (ClashHome (conf w)) (ClashUI (conf w)).
Definition clashBinPath : string :=
  filepath_Join pkg (ClashHome (conf w)) (InternalClashBinName pkg).

(** *** The reload goroutine (lines 100-145) *)

Definition is_2xx (code : Z) : bool := (200 <=? code) && (code <=? 299).

(** One turn of the loop on the value [ccStr]; a [continue] ends it. *)
Definition reload_one (ccStr : string) : M unit :=
  logf InfoLevel "[main] clash config changed, reloading..." [] >>
  let ccStr := AutoFix pkg ccStr in
  match CheckConfig pkg ccStr with
  | inr err =>
      logf ErrorLevel
        ("[main] an error was detected in the clash config, skipping automatic reload:"
           +:+ nl +:+ " %v") [AStr err]
  | inl cc =>
      werr <- WriteFile clashConfPath ccStr ;;
      match werr with
      | Some err => logf ErrorLevel "[main] failed to copy clash config: %v" [AStr err]
      | None =>
          let apiAddr := ExternalController cc in
          let apiAddr := if String.eqb apiAddr "" then "127.0.0.1:9090" else apiAddr in
          let secret := Secret cc in
          match NewRequest "PUT" ("http://" +:+ apiAddr +:+ "/configs")
                  (Sprintf_path clashConfPath) with
          | inr err => logf ErrorLevel "[main] failed to create reload req: %v" [AStr err]
          | inl req =>
              let req := Header_Set "Authorization" ("Bearer " +:+ secret) req in
              r <- Do req ;;
              match r with
              | inr err => logf ErrorLevel "[main] failed to reload config: %v" [AStr err]
              | inl resp =>
                  (if negb (is_2xx (StatusCode resp)) then
                     emit (EvReadBody (RespBody resp)) >>
                     logf ErrorLevel "[main] failed to reload config: status %d: %s"
                       [AInt (StatusCode resp); AStr (RespBody resp)]
                   else ret tt) >>
                  logf InfoLevel "[main] clash config reload success..." []
              end
          end
      end
  end.

(** [for ccStr := range updateCh]: one value after the other; when the
    channel is drained the goroutine waits on it. *)
Fixpoint reload_loop (values : list string) : M unit :=
  match values with
  | [] => ret tt
  | ccStr :: rest =>
      emit (EvRecv ccStr) >> reload_one ccStr >> reload_loop rest
  end.

(** [go func() { ... }()]: the goroutine takes over [updateCh]; its events
    go to [go_trace], apart from those of the main goroutine, so that no
    interleaving of the two is fixed.  The disk is shared: the main
    goroutine writes before the launch only, the reload goroutine after
    it. *)
Definition go_reload : M unit :=
  fun s =>
    let s0 := {| trace := []; go_trace := []; disk := disk s;
                 writes := writes s; requests := requests s;
                 chan := []; cancelled := cancelled s |} in
    let s1 := exec (reload_loop (chan s)) s0 in
    (Val tt,
     {| trace := trace s ++ [EvGo];
        go_trace := trace s1;
        disk := disk s1;
        writes := writes s1;
        requests := requests s1;
        chan := [];
        cancelled := cancelled s |}).

(** *** [rootCmd.Run] (lines 31-163) *)

Definition banner : string :=
  "%s" +:+ nl +:+ "Version: %s" +:+ nl +:+ "Build: %s" +:+ nl
    +:+ "Clash Core: %s" +:+ nl +:+ "Commit: %s" +:+ nl.

Definition cmd_Args : list string :=
  [clashBinPath; "-f"; clashConfPath; "-d"; ClashHome (conf w);
   "-ext-ui"; ClashUIPath].

(** [cmd.Start()]: returns its error and leaves [cmd.Process]. *)
Definition Start : M (option error * option Z) :=
  emit (EvStart cmd_Args (Start_err w)) >>
  ret (Start_err w, Start_Process w).

Definition NewProxyMode : M (ProxyMode + error) :=
  emit (EvNewProxyMode match NewProxyMode_result w with
                       | inl _ => None
                       | inr e => Some e
                       end) >>
  ret (NewProxyMode_result w).

Definition callEnableProxy (p : ProxyMode) : M (option error) :=
  emit (EvEnableProxy (EnableProxy p)) >> ret (EnableProxy p).

Definition callDisableProxy (p : ProxyMode) : M (option error) :=
  emit (EvDisableProxy (DisableProxy p)) >> ret (DisableProxy p).

Definition Kill : M (option error) :=
  emit (EvKill (Kill_err w)) >> ret (Kill_err w).

(** Lines 149-162: what follows [<-ctx.Done()]. *)
Definition shutdown (proxyMode : ProxyMode) (Process : option Z) : M unit :=
  logf InfoLevel "[main] 🛑 TPClash 正在停止..." [] >>
  derr <- callDisableProxy proxyMode ;;
  match derr with
  | Some err => logf ErrorLevel "%v" [AStr err]
  | None => ret tt
  end >>
  match Process with
  | Some _ =>
      kerr <- Kill ;;
      match kerr with
      | Some err => logf ErrorLevel "%v" [AStr err]
      | None => ret tt
      end
  | None => ret tt
  end >>
  logf InfoLevel "[main] 🛑 TPClash 已关闭!" [].

Definition Run : M unit :=
  if PrintVersion (conf w) then
    emit (EvPrintf banner [AStr (logo pkg); AStr (version pkg); AStr (build pkg);
                           AStr (clash pkg); AStr (commit pkg)])
  else
    (if Debug (conf w) then emit (EvSetLevel DebugLevel) else ret tt) >>
    logf InfoLevel "[main] starting tpclash..." [] >>
    call EvSysctl (Sysctl_effect w) (Sysctl_fatal w) >>
    call EvExtractFiles (ExtractFiles_effect w) (ExtractFiles_fatal w) >>
    call EvWatchConfig (WatchConfig_effect w) (WatchConfig_fatal w) >>
    clashConfStr <- recv ;;
    match CheckConfig pkg clashConfStr with
    | inr err => fatalf "%v" [AStr err]
    | inl _ =>
        werr <- WriteFile clashConfPath clashConfStr ;;
        match werr with
        | Some err => fatalf "[main] failed to copy clash config: %v" [AStr err]
        | None =>
            logf InfoLevel "[main] running cmds: %v" [AStrs cmd_Args] >>
            started <- Start ;;
            match fst started with
            | Some err => logf ErrorLevel "%v" [AStr err] >> cancel
            | None => ret tt
            end >>
            match snd started with
            | None =>
                logf ErrorLevel "failed to start clash process: %v" [AStrs cmd_Args] >>
                cancel
            | Some _ => ret tt
            end >>
            pm <- NewProxyMode ;;
            match pm with
            | inr err => fatalf "[main] failed to create proxy mode: %v" [AStr err]
            | inl proxyMode =>
                eerr <- callEnableProxy proxyMode ;;
                match eerr with
                | Some err => fatalf "[main] failed to enable proxy: %v" [AStr err]
                | None =>
                    go_reload >>
                    logf InfoLevel "[main] 🍄 提莫队长正在待命..." [] >>
                    wait_Done >>
                    shutdown proxyMode (snd started) >>
                    (* deferred at line 45 *)
                    cancel
                end
            end
        end
    end.

(** The state [Run] starts in: nothing has happened, the watcher's values
    are on the way, [d] is on the disk. *)
Definition init (d : gmap string string) : St :=
  {| trace := []; go_trace := []; disk := d; writes := 0; requests := 0;
     chan := updateCh w; cancelled := false |}.

End Supervisor.

(** ** Reading traces *)

(** The log line of a step whose failure is only reported. *)
Definition opt_log (r : option error) : list Event :=
  match r with
  | Some err => [EvLog ErrorLevel "%v" [AStr err]]
  | None => []
  end.

Definition is_Done (e : Event) : bool :=
  match e with
  | EvDone => true
  | _ => false
  end.

Definition is_Go (e : Event) : bool :=
  match e with
  | EvGo => true
  | _ => false
  end.

Definition is_Recv (e : Event) : bool :=
  match e with
  | EvRecv _ => true
  | _ => false
  end.

Definition is_Start (e : Event) : bool :=
  match e with
  | EvStart _ _ => true
  | _ => false
  end.

Definition is_EnableProxy (e : Event) : bool :=
  match e with
  | EvEnableProxy _ => true
  | _ => false
  end.

Definition is_DisableProxy (e : Event) : bool :=
  match e with
  | EvDisableProxy _ => true
  | _ => false
  end.

(** Steps that returned an error. *)
Definition failed_Start (e : Event) : bool :=
  match e with
  | EvStart _ (Some _) => true
  | _ => false
  end.

Definition failed_EnableProxy (e : Event) : bool :=
  match e with
  | EvEnableProxy (Some _) => true
  | _ => false
  end.

Definition failed_DisableProxy (e : Event) : bool :=
  match e with
  | EvDisableProxy (Some _) => true
  | _ => false
  end.

(** Tearing down: disabling the proxy or killing the child. *)
Definition is_teardown (e : Event) : bool :=
  match e with
  | EvDisableProxy _ | EvKill _ => true
  | _ => false
  end.

(** Bringing up: spawning the engine or enabling the proxy. *)
Definition is_bringup (e : Event) : bool :=
  match e with
  | EvStart _ _ | EvEnableProxy _ => true
  | _ => false
  end.

(** Any effect other than printing. *)
Definition is_effect (e : Event) : bool :=
  match e with
  | EvPrintf _ _ => false
  | _ => true
  end.

Definition none_of (P : Event -> bool) (l : list Event) : bool :=
  forallb (fun e => negb (P e)) l.

(** The events before the first one that satisfies [P]. *)
Fixpoint before (P : Event -> bool) (l : list Event) : list Event :=
  match l with
  | [] => []
  | e :: l' => if P e then [] else e :: before P l'
  end.

(** The events after the first one that satisfies [P]. *)
Fixpoint after (P : Event -> bool) (l : list Event) : list Event :=
  match l with
  | [] => []
  | e :: l' => if P e then l' else after P l'
  end.

(** The values received on [updateCh], in the order of the trace. *)
Fixpoint recvs (l : list Event) : list string :=
  match l with
  | [] => []
  | EvRecv v :: l' => v :: recvs l'
  | _ :: l' => recvs l'
  end.

(** The requests sent, in the order of the trace. *)
Fixpoint sent (l : list Event) : list Request :=
  match l with
  | [] => []
  | EvDo req :: l' => req :: sent l'
  | _ :: l' => sent l'
  end.

(** No value is received and no request is sent while a request is in
    flight; [in_flight] tells whether one is when [l] begins. *)
Fixpoint one_at_a_time (in_flight : bool) (l : list Event) : bool :=
  match l with
  | [] => negb in_flight
  | EvRecv _ :: l' => negb in_flight && one_at_a_time false l'
  | EvDo _ :: l' => negb in_flight && one_at_a_time true l'
  | EvDoReturn _ :: l' => in_flight && one_at_a_time false l'
  | _ :: l' => one_at_a_time in_flight l'
  end.

(** The run gets as far as reading [updateCh]: no [--version], and the
    three calls before it return. *)
Definition watching (w : World) : Prop :=
  PrintVersion (conf w) = false /\
  Sysctl_fatal w = None /\
  ExtractFiles_fatal w = None /\
  WatchConfig_fatal w = None.

(** The files as [Sysctl], [ExtractFiles] and [WatchConfig] leave them. *)
Definition startup_disk (w : World) (d : gmap string string) : gmap string string :=
  WatchConfig_effect w (ExtractFiles_effect w (Sysctl_effect w d)).

(** The last two log lines of [Run]. *)
Definition log_stopping : Event :=
  EvLog InfoLevel "[main] 🛑 TPClash 正在停止..." [].

Definition log_stopped : Event :=
  EvLog InfoLevel "[main] 🛑 TPClash 已关闭!" [].

(** The kill step of the shutdown path for a given [cmd.Process]. *)
Definition kill_step (w : World) : list Event :=
  match Start_Process w with
  | Some _ => EvKill (Kill_err w) :: opt_log (Kill_err w)
  | None => []
  end.

(** The reload loop's verdict on an update: it checks the fixed text. *)
Definition accepted (pkg : Package) (u : string) : bool :=
  match CheckConfig pkg (AutoFix pkg u) with
  | inl _ => true
  | inr _ => false
  end.

(** The persisted configuration as the specification words it: the last
    valid update of the sequence, or the start-up configuration when none
    is valid. *)
Definition spec_persisted (pkg : Package) (startup : string)
    (updates : list string) : string :=
  default startup (last (List.filter (accepted pkg) updates)).

(** The two log lines of the reload loop that report on a response. *)
Definition reload_failed_status (resp : Response) : Event :=
  EvLog ErrorLevel "[main] failed to reload config: status %d: %s"
    [AInt (StatusCode resp); AStr (RespBody resp)].

Definition reload_success : Event :=
  EvLog InfoLevel "[main] clash config reload success..." [].

(** The request the loop builds for a checked configuration. *)
Definition controller (cc : ClashConf) : string :=
  if String.eqb (ExternalController cc) "" then "127.0.0.1:9090"
  else ExternalController cc.

Definition reload_request (pkg : Package) (w : World) (cc : ClashConf) : Request :=
  {| Method := "PUT";
     URL := "http://" +:+ controller cc +:+ "/configs";
     Header := [("Authorization", "Bearer " +:+ Secret cc)];
     Body := Sprintf_path (clashConfPath pkg w) |}.

(** The two log lines of a turn that rejects its value. *)
Definition log_changed : Event :=
  EvLog InfoLevel "[main] clash config changed, reloading..." [].

Definition log_skipping (err : error) : Event :=
  EvLog ErrorLevel
    ("[main] an error was detected in the clash config, skipping automatic reload:"
       +:+ nl +:+ " %v") [AStr err].

(** The error lines of the three later [continue]s of the loop. *)
Definition log_copy_failed (err : error) : Event :=
  EvLog ErrorLevel "[main] failed to copy clash config: %v" [AStr err].

Definition log_request_failed (err : error) : Event :=
  EvLog ErrorLevel "[main] failed to create reload req: %v" [AStr err].

Definition log_reload_failed (err : error) : Event :=
  EvLog ErrorLevel "[main] failed to reload config: %v" [AStr err].

(** A finished turn of the reload loop on the value [u], from the receive
    to the last log line: the value is rejected; or it is accepted and the
    write fails; or the request cannot be built; or the request is sent
    and [cli.Do] comes back with an error; or it comes back with a
    response, of a 2xx status or of another one. *)
Inductive turn (pkg : Package) (w : World) (u : string) : list Event -> Prop :=
| turn_rejected (err : error) :
    CheckConfig pkg (AutoFix pkg u) = inr err ->
    turn pkg w u [EvRecv u; log_changed; log_skipping err]
| turn_not_written (cc : ClashConf) (out : WriteOutcome) (err : error) :
    CheckConfig pkg (AutoFix pkg u) = inl cc ->
    write_result out = Some err ->
    turn pkg w u
      [EvRecv u; log_changed;
       EvWriteFile (clashConfPath pkg w) (AutoFix pkg u) out;
       log_copy_failed err]
| turn_not_built (cc : ClashConf) (err : error) :
    CheckConfig pkg (AutoFix pkg u) = inl cc ->
    url_Parse_err pkg (URL (reload_request pkg w cc)) = Some err ->
    turn pkg w u
      [EvRecv u; log_changed;
       EvWriteFile (clashConfPath pkg w) (AutoFix pkg u) WriteOk;
       log_request_failed err]
| turn_not_answered (cc : ClashConf) (req : Request) (err : error) :
    CheckConfig pkg (AutoFix pkg u) = inl cc ->
    req = reload_request pkg w cc ->
    turn pkg w u
      [EvRecv u; log_changed;
       EvWriteFile (clashConfPath pkg w) (AutoFix pkg u) WriteOk;
       EvDo req; EvDoReturn (inr err);
       log_reload_failed err]
| turn_answered_2xx (cc : ClashConf) (req : Request) (resp : Response) :
    CheckConfig pkg (AutoFix pkg u) = inl cc ->
    req = reload_request pkg w cc ->
    is_2xx (StatusCode resp) = true ->
    turn pkg w u
      [EvRecv u; log_changed;
       EvWriteFile (clashConfPath pkg w) (AutoFix pkg u) WriteOk;
       EvDo req; EvDoReturn (inl resp);
       reload_success]
| turn_answered_other (cc : ClashConf) (req : Request) (resp : Response) :
    CheckConfig pkg (AutoFix pkg u) = inl cc ->
    req = reload_request pkg w cc ->
    is_2xx (StatusCode resp) = false ->
    turn pkg w u
      [EvRecv u; log_changed;
       EvWriteFile (clashConfPath pkg w) (AutoFix pkg u) WriteOk;
       EvDo req; EvDoReturn (inl resp);
       EvReadBody (RespBody resp); reload_failed_status resp;
       reload_success].

(** ** Concrete worlds *)

Definition conf_default : TPClashConf :=
  {| Debug := false; ClashHome := "/data/clash";
     ClashConfig := "/etc/clash.yaml"; ClashUI := "yacd";
     CheckInterval := 120; HttpHeader := []; DisableExtract := false;
     PrintVersion := false |}.

Definition conf_version : TPClashConf :=
  {| Debug := false; ClashHome := "/data/clash";
     ClashConfig := "/etc/clash.yaml"; ClashUI := "yacd";
     CheckInterval := 120; HttpHeader := []; DisableExtract := false;
     PrintVersion := true |}.

(** A package whose checker rejects the empty text only and whose fixer
    changes nothing. *)
Definition pkg_plain : Package :=
  {| CheckConfig := fun s =>
       if String.eqb s "" then inr "empty config"
       else inl {| ExternalController := ""; Secret := "" |};
     AutoFix := fun s => s;
     InternalConfigName := "config.yaml";
     InternalClashBinName := "clash";
     logo := "tpclash"; version := "v0"; build := "b0"; clash := "c0";
     commit := "0000000";
     filepath_Join := fun a b => a +:+ "/" +:+ b;
     url_Parse_err := fun _ => None |}.

Definition cc_plain : ClashConf := {| ExternalController := ""; Secret := "" |}.

Definition pm_ok : ProxyMode := {| EnableProxy := None; DisableProxy := None |}.

(** A quiet run: three configurations arrive, everything succeeds, the
    engine answers 204, and SIGHUP ends it. *)
Definition w_quiet : World :=
  {| conf := conf_default;
     Sysctl_fatal := None; ExtractFiles_fatal := None; WatchConfig_fatal := None;
     Sysctl_effect := fun dk => dk;
     ExtractFiles_effect := fun dk => <["/data/clash/clash" := "clash-core"]> dk;
     WatchConfig_effect := fun dk => dk;
     updateCh := ["port: 7890"; "port: 7891"; "port: 7892"];
     WriteFile_outcome := fun _ => WriteOk;
     Start_err := None; Start_Process := Some 4242;
     NewProxyMode_result := inl pm_ok;
     Kill_err := None;
     Do_result := fun _ _ => inl {| StatusCode := 204; RespBody := "" |};
     signal := Some SIGHUP |}.

Definition with_conf (c : TPClashConf) (w : World) : World :=
  {| conf := c;
     Sysctl_fatal := Sysctl_fatal w; ExtractFiles_fatal := ExtractFiles_fatal w;
     WatchConfig_fatal := WatchConfig_fatal w;
     Sysctl_effect := Sysctl_effect w;
     ExtractFiles_effect := ExtractFiles_effect w;
     WatchConfig_effect := WatchConfig_effect w;
     updateCh := updateCh w;
     WriteFile_outcome := WriteFile_outcome w;
     Start_err := Start_err w; Start_Process := Start_Process w;
     NewProxyMode_result := NewProxyMode_result w;
     Kill_err := Kill_err w;
     Do_result := Do_result w;
     signal := signal w |}.

Definition with_updateCh (c : list string) (w : World) : World :=
  {| conf := conf w;
     Sysctl_fatal := Sysctl_fatal w; ExtractFiles_fatal := ExtractFiles_fatal w;
     WatchConfig_fatal := WatchConfig_fatal w;
     Sysctl_effect := Sysctl_effect w;
     ExtractFiles_effect := ExtractFiles_effect w;
     WatchConfig_effect := WatchConfig_effect w;
     updateCh := c;
     WriteFile_outcome := WriteFile_outcome w;
     Start_err := Start_err w; Start_Process := Start_Process w;
     NewProxyMode_result := NewProxyMode_result w;
     Kill_err := Kill_err w;
     Do_result := Do_result w;
     signal := signal w |}.

Definition with_WriteFile (f : nat -> WriteOutcome) (w : World) : World :=
  {| conf := conf w;
     Sysctl_fatal := Sysctl_fatal w; ExtractFiles_fatal := ExtractFiles_fatal w;
     WatchConfig_fatal := WatchConfig_fatal w;
     Sysctl_effect := Sysctl_effect w;
     ExtractFiles_effect := ExtractFiles_effect w;
     WatchConfig_effect := WatchConfig_effect w;
     updateCh := updateCh w;
     WriteFile_outcome := f;
     Start_err := Start_err w; Start_Process := Start_Process w;
     NewProxyMode_result := NewProxyMode_result w;
     Kill_err := Kill_err w;
     Do_result := Do_result w;
     signal := signal w |}.

Definition with_Start (e : option error) (p : option Z) (w : World) : World :=
  {| conf := conf w;
     Sysctl_fatal := Sysctl_fatal w; ExtractFiles_fatal := ExtractFiles_fatal w;
     WatchConfig_fatal := WatchConfig_fatal w;
     Sysctl_effect := Sysctl_effect w;
     ExtractFiles_effect := ExtractFiles_effect w;
     WatchConfig_effect := WatchConfig_effect w;
     updateCh := updateCh w;
     WriteFile_outcome := WriteFile_outcome w;
     Start_err := e; Start_Process := p;
     NewProxyMode_result := NewProxyMode_result w;
     Kill_err := Kill_err w;
     Do_result := Do_result w;
     signal := signal w |}.

Definition with_ProxyMode (r : ProxyMode + error) (w : World) : World :=
  {| conf := conf w;
     Sysctl_fatal := Sysctl_fatal w; ExtractFiles_fatal := ExtractFiles_fatal w;
     WatchConfig_fatal := WatchConfig_fatal w;
     Sysctl_effect := Sysctl_effect w;
     ExtractFiles_effect := ExtractFiles_effect w;
     WatchConfig_effect := WatchConfig_effect w;
     updateCh := updateCh w;
     WriteFile_outcome := WriteFile_outcome w;
     Start_err := Start_err w; Start_Process := Start_Process w;
     NewProxyMode_result := r;
     Kill_err := Kill_err w;
     Do_result := Do_result w;
     signal := signal w |}.

Definition with_Do (f : nat -> Request -> Response + error) (w : World) : World :=
  {| conf := conf w;
     Sysctl_fatal := Sysctl_fatal w; ExtractFiles_fatal := ExtractFiles_fatal w;
     WatchConfig_fatal := WatchConfig_fatal w;
     Sysctl_effect := Sysctl_effect w;
     ExtractFiles_effect := ExtractFiles_effect w;
     WatchConfig_effect := WatchConfig_effect w;
     updateCh := updateCh w;
     WriteFile_outcome := WriteFile_outcome w;
     Start_err := Start_err w; Start_Process := Start_Process w;
     NewProxyMode_result := NewProxyMode_result w;
     Kill_err := Kill_err w;
     Do_result := f;
     signal := signal w |}.

Definition with_signal (sg : option Signal) (w : World) : World :=
  {| conf := conf w;
     Sysctl_fatal := Sysctl_fatal w; ExtractFiles_fatal := ExtractFiles_fatal w;
     WatchConfig_fatal := WatchConfig_fatal w;
     Sysctl_effect := Sysctl_effect w;
     ExtractFiles_effect := ExtractFiles_effect w;
     WatchConfig_effect := WatchConfig_effect w;
     updateCh := updateCh w;
     WriteFile_outcome := WriteFile_outcome w;
     Start_err := Start_err w; Start_Process := Start_Process w;
     NewProxyMode_result := NewProxyMode_result w;
     Kill_err := Kill_err w;
     Do_result := Do_result w;
     signal := sg |}.

(** [--version] *)
Definition w_version : World := with_conf conf_version w_quiet.

(** The first configuration is the empty text, which the checker rejects. *)
Definition w_bad_first : World := with_updateCh [""; "port: 7890"] w_quiet.

(** Nothing arrives on the channel. *)
Definition w_silent : World := with_updateCh [] w_quiet.

(** The disk refuses the second write: the file cannot be opened. *)
Definition w_disk_full : World :=
  with_WriteFile (fun k => match k with
                           | 1%nat => OpenErr "no space left on device"
                           | _ => WriteOk
                           end)
    (with_updateCh ["port: 7890"; "port: 7891"] w_quiet).

(** The same disk with three configurations: the write of the second one
    fails, the write of the third one succeeds. *)
Definition w_retry : World := with_updateCh (updateCh w_quiet) w_disk_full.

(** The engine cannot be started. *)
Definition w_no_engine : World :=
  with_Start (Some "fork/exec /data/clash/clash: permission denied") None w_quiet.

(** Enabling the proxy fails. *)
Definition w_enable_fails : World :=
  with_ProxyMode (inl {| EnableProxy := Some "iptables: not found";
                         DisableProxy := None |}) w_quiet.

(** Disabling the proxy fails. *)
Definition w_disable_fails : World :=
  with_ProxyMode (inl {| EnableProxy := None;
                         DisableProxy := Some "iptables: no chain" |}) w_quiet.

(** The engine answers 500 to the reload. *)
Definition w_reload_500 : World :=
  with_Do (fun _ _ => inl {| StatusCode := 500; RespBody := "yaml: line 3" |})
    (with_updateCh ["port: 7890"; "port: 7891"] w_quiet).

(** ** More ways to read a trace *)

(** The steps of the supervisor's life, numbered in the order [Run] is
    written; logging, [cancel] and the log level are not steps. *)
Definition rank (e : Event) : option nat :=
  match e with
  | EvSysctl => Some 0%nat
  | EvExtractFiles => Some 1%nat
  | EvWatchConfig => Some 2%nat
  | EvRecv _ => Some 3%nat
  | EvWriteFile _ _ _ => Some 4%nat
  | EvStart _ _ => Some 5%nat
  | EvNewProxyMode _ => Some 6%nat
  | EvEnableProxy _ => Some 7%nat
  | EvGo => Some 8%nat
  | EvDone => Some 9%nat
  | EvDisableProxy _ => Some 10%nat
  | EvKill _ => Some 11%nat
  | _ => None
  end.

Fixpoint ranks (l : list Event) : list nat :=
  match l with
  | [] => []
  | e :: l' =>
      match rank e with
      | Some n => n :: ranks l'
      | None => ranks l'
      end
  end.

Definition is_WriteFile (e : Event) : bool :=
  match e with
  | EvWriteFile _ _ _ => true
  | _ => false
  end.

Definition is_ok_write (e : Event) : bool :=
  match e with
  | EvWriteFile _ _ WriteOk => true
  | _ => false
  end.

Definition is_Do (e : Event) : bool :=
  match e with
  | EvDo _ => true
  | _ => false
  end.

(** [cli.Do] came back with a response, of whatever status. *)
Definition is_response (e : Event) : bool :=
  match e with
  | EvDoReturn (inl _) => true
  | _ => false
  end.

(** The log line of line 143. *)
Definition is_success_log (e : Event) : bool :=
  match e with
  | EvLog InfoLevel format [] =>
      String.eqb format "[main] clash config reload success..."
  | _ => false
  end.

(** How many events of [l] pass the test [P]. *)
Definition count (P : Event -> bool) (l : list Event) : nat :=
  length (List.filter P l).

(** What the reload goroutine may do: receive, log, write the internal
    configuration file, send a request and read its answer. *)
Definition reload_event (pkg : Package) (w : World) (e : Event) : Prop :=
  match e with
  | EvRecv _ | EvLog _ _ _ | EvDo _ | EvDoReturn _ | EvReadBody _ => True
  | EvWriteFile name _ _ => name = clashConfPath pkg w
  | _ => False
  end.

(** ** More concrete worlds *)

(** No signal ever comes. *)
Definition w_waiting : World := with_signal None w_quiet.

(** [cmd.Start] returns no error but leaves no process, and no signal
    comes. *)
Definition w_no_handle : World := with_signal None (with_Start None None w_quiet).

(** The second write fails after four bytes. *)
Definition w_torn_write : World :=
  with_WriteFile (fun k => match k with
                           | 1%nat => ShortWrite "disk quota exceeded" 4
                           | _ => WriteOk
                           end)
    (with_updateCh ["port: 7890"; "port: 7891"] w_quiet).

(** No file can be opened for writing. *)
Definition w_readonly : World :=
  with_WriteFile (fun _ => OpenErr "read-only file system") w_quiet.

(** ** Properties *)

(** Unfold [Run] and the primitives in [H], leaving the reload loop
    folded. *)
Ltac unfold_run H :=
  cbv beta iota zeta delta
    [Run shutdown bind ret emit exit block logf fatalf call recv WriteFile
     cancel wait_Done Start NewProxyMode callEnableProxy callDisableProxy
     Kill go_reload init set_trace set_chan set_cancelled write_result
     trace go_trace disk writes requests chan cancelled fst snd app] in H.

(** Split on the next undecided answer of the world in [H]. *)
Ltac case_step H :=
  match type of H with
  | context [match ?x with _ => _ end] =>
      lazymatch x with
      | context [match _ with _ => _ end] => fail
      | _ => destruct x eqn:?
      end
  end.

(** Every way [Run] can go: [H : r = Run ...] becomes [r = (res, st)]. *)
Ltac run_cases H := unfold_run H; repeat (case_step H; unfold_run H).

(** The same for one turn of the reload loop. *)
Ltac unfold_turn H :=
  cbv beta iota zeta delta
    [reload_one NewRequest Do WriteFile Header_Set Sprintf_path bind ret emit
     logf exec set_trace write_result negb fst snd trace go_trace disk
     writes requests chan cancelled Method URL Header Body List.filter] in H.

Ltac turn_cases H := unfold_turn H; repeat (case_step H; unfold_turn H).

(** Read the traces of a finished case. *)
Ltac read_trace :=
  cbn [fst snd trace go_trace disk writes requests chan cancelled
       In app before after none_of forallb negb andb is_Done is_Go is_Start
       is_Recv failed_Start failed_EnableProxy failed_DisableProxy
       is_EnableProxy is_DisableProxy is_teardown is_bringup is_effect
       opt_log kill_step skipn length List.filter existsb orb recvs].

(** Replace the world's answers by what the case fixed them to. *)
Ltac use_answers :=
  repeat match goal with
         | H : ?x = _ |- _ =>
             lazymatch x with
             | DisableProxy _ => idtac
             | EnableProxy _ => idtac
             | Kill_err _ => idtac
             | Start_Process _ => idtac
             | Start_err _ => idtac
             | NewProxyMode_result _ => idtac
             | CheckConfig _ _ => idtac
             | updateCh _ => idtac
             | WriteFile_outcome _ _ => idtac
             | Do_result _ _ _ => idtac
             | url_Parse_err _ _ => idtac
             | signal _ => idtac
             | Debug _ => idtac
             | PrintVersion _ => idtac
             end;
             rewrite H
         end.

(** Membership in a trace that has been read. *)
Ltac found := repeat first [left; reflexivity | right].

(** Which event of a read trace [H] speaks of. *)
Ltac locate H :=
  cbn [In] in H;
  repeat (destruct H as [H | H]; [try discriminate H |]);
  try contradiction.

Section Properties.

Variable pkg : Package.
Variable w : World.

(** An event of a trace is found by any test it passes. *)
Lemma In_existsb (P : Event -> bool) (e : Event) (l : list Event) :
  In e l -> P e = true -> existsb P l = true.
Proof.
  intros Hin HP. apply existsb_exists. exists e. split; assumption.
Qed.

(** *** The reload goroutine *)

Lemma recvs_app (a b : list Event) : recvs (a ++ b) = recvs a ++ recvs b.
Proof.
  induction a as [| e a IH]; [reflexivity |].
  destruct e; cbn [app recvs]; rewrite ?IH; reflexivity.
Qed.

Lemma sent_app (a b : list Event) : sent (a ++ b) = sent a ++ sent b.
Proof.
  induction a as [| e a IH]; [reflexivity |].
  destruct e; cbn [app sent]; rewrite ?IH; reflexivity.
Qed.

Lemma In_sent (req : Request) (l : list Event) :
  In (EvDo req) l <-> In req (sent l).
Proof.
  induction l as [| e l IH]; [reflexivity |].
  destruct e; cbn [In sent]; rewrite IH;
    try (split; [intros [H | H]; [discriminate H | exact H] | intros H; right; exact H]).
  split; (intros [H | H]; [left; congruence | right; exact H]).
Qed.

(** A stretch that ends with no request in flight can be followed by
    another one. *)
Lemma one_at_a_time_app (f : bool) (a b : list Event) :
  one_at_a_time f a = true ->
  one_at_a_time false b = true ->
  one_at_a_time f (a ++ b) = true.
Proof.
  revert f. induction a as [| e a IH]; intros f Ha Hb.
  - destruct f; [discriminate Ha | exact Hb].
  - destruct e; cbn [app one_at_a_time] in *;
      try (apply IH; assumption);
      apply andb_true_iff in Ha as [Hf Ha];
      apply andb_true_iff; split; try assumption; apply IH; assumption.
Qed.

(** The success test of line 137. *)
Lemma is_2xx_spec (code : Z) : is_2xx code = true <-> 200 <= code <= 299.
Proof.
  unfold is_2xx. rewrite andb_true_iff, !Z.leb_le. reflexivity.
Qed.

(** A turn of the loop always comes to its end. *)
Lemma reload_one_total (u : string) (s : St) :
  fst (reload_one pkg w u s) = Val tt.
Proof.
  destruct s as [t g dk nw nr ch c].
  remember (reload_one pkg w u _) as r eqn:Hr.
  turn_cases Hr; subst r; reflexivity.
Qed.

(** A turn of the loop is a finished turn: what it adds to the trace,
    after the receive, is one of the six ways a turn can go. *)
Lemma reload_one_turn (u : string) (s : St) :
  exists t,
    turn pkg w u t /\
    trace (exec (reload_one pkg w u) (set_trace (trace s ++ [EvRecv u]) s)) =
      trace s ++ t.
Proof.
  destruct s as [t g dk nw nr ch c]. cbn [set_trace trace go_trace disk writes
    requests chan cancelled].
  remember (exec (reload_one pkg w u) _) as s' eqn:Hr.
  turn_cases Hr; subst s'; cbn [trace]; rewrite <- ?app_assoc; cbn [app];
    eexists; (split; [| reflexivity]).
  all: first
    [ eapply turn_rejected; eassumption
    | eapply turn_not_written; [eassumption | reflexivity]
    | eapply turn_not_built; [eassumption |];
      unfold reload_request, controller; cbn [URL];
      match goal with H : String.eqb _ _ = _ |- _ => rewrite H end; assumption
    | first [ eapply turn_not_answered; [eassumption |]
            | eapply turn_answered_2xx; [eassumption | | assumption]
            | eapply turn_answered_other; [eassumption | | assumption] ];
      unfold reload_request, controller, Sprintf_path;
      match goal with H : String.eqb _ _ = _ |- _ => rewrite H end;
      reflexivity ].
Qed.

(** The loop goes through any list of values. *)
Lemma reload_loop_total (values : list string) (s : St) :
  fst (reload_loop pkg w values s) = Val tt.
Proof.
  revert s. induction values as [| u values IH]; intros s; [reflexivity |].
  cbn [reload_loop]. unfold bind at 1. cbn [emit].
  unfold bind at 1.
  pose proof (reload_one_total u (set_trace (trace s ++ [EvRecv u]) s)) as Hu.
  destruct (reload_one pkg w u _) as [[[] | c |] s']; cbn [fst] in Hu;
    try discriminate Hu.
  apply IH.
Qed.

(** The state after the loop, one turn at a time. *)
Lemma exec_reload_loop_cons (u : string) (values : list string) (s : St) :
  exec (reload_loop pkg w (u :: values)) s =
  exec (reload_loop pkg w values)
    (exec (reload_one pkg w u) (set_trace (trace s ++ [EvRecv u]) s)).
Proof.
  unfold exec. cbn [reload_loop]. unfold bind at 1. cbn [emit].
  unfold bind at 1.
  pose proof (reload_one_total u (set_trace (trace s ++ [EvRecv u]) s)) as Hu.
  destruct (reload_one pkg w u _) as [[[] | c |] s']; cbn [fst] in Hu;
    try discriminate Hu.
  reflexivity.
Qed.

(** The goroutine's trace is one finished turn per value, in the order of
    the values. *)
Lemma reload_loop_turns (values : list string) (s : St) :
  exists turns,
    trace (exec (reload_loop pkg w values) s) = trace s ++ concat turns /\
    Forall2 (turn pkg w) values turns.
Proof.
  revert s. induction values as [| u values IH]; intros s.
  - exists []. split; [| constructor].
    cbn [reload_loop exec ret snd concat]. symmetry. apply app_nil_r.
  - rewrite exec_reload_loop_cons.
    destruct (reload_one_turn u s) as (t & Hturn & Ht).
    destruct (IH (exec (reload_one pkg w u) (set_trace (trace s ++ [EvRecv u]) s)))
      as (turns & Htrace & Hturns).
    exists (t :: turns). split.
    + rewrite Htrace, Ht. cbn [concat]. rewrite <- !app_assoc. reflexivity.
    + constructor; [exact Hturn | exact Hturns].
Qed.

(** A finished turn receives its value and no other, and nothing falls
    between a request and its answer. *)
Lemma turn_sequential (u : string) (t : list Event) :
  turn pkg w u t -> recvs t = [u] /\ one_at_a_time false t = true.
Proof.
  intros Ht. destruct Ht; split; reflexivity.
Qed.

(** Turns put end to end: the values are received in their order, and
    nothing overlaps a request in flight. *)
Lemma turns_in_order (values : list string) (turns : list (list Event)) :
  Forall2 (turn pkg w) values turns ->
  recvs (concat turns) = values /\ one_at_a_time false (concat turns) = true.
Proof.
  induction 1 as [| u t values turns Ht _ [IHr IHs]];
    [split; reflexivity |].
  destruct (turn_sequential u t Ht) as [Hrecv Hseq].
  cbn [concat]. split.
  - rewrite recvs_app, Hrecv, IHr. reflexivity.
  - apply one_at_a_time_app; assumption.
Qed.

(** What a turn does to the disk: an accepted value is written, with the
    outcome the world gives to this write; a rejected one changes
    nothing. *)
Lemma reload_one_disk (u : string) (s : St) :
  disk (exec (reload_one pkg w u) s) =
  match CheckConfig pkg (AutoFix pkg u) with
  | inl _ =>
      write_disk (WriteFile_outcome w (writes s)) (clashConfPath pkg w)
        (AutoFix pkg u) (disk s)
  | inr _ => disk s
  end.
Proof.
  destruct s as [t g dk nw nr ch c].
  remember (exec (reload_one pkg w u) _) as s' eqn:Hr.
  turn_cases Hr; subst s'; cbn [disk writes];
    repeat match goal with
           | H : WriteFile_outcome w _ = _ |- _ => rewrite H
           end;
    reflexivity.
Qed.

(** When every write succeeds, the file holds the fixed text of the last
    accepted value, or what it held before the loop when none was
    accepted. *)
Lemma reload_loop_disk (values : list string) (s : St) :
  (forall k, WriteFile_outcome w k = WriteOk) ->
  disk (exec (reload_loop pkg w values) s) !! clashConfPath pkg w =
  match last (List.filter (accepted pkg) values) with
  | Some u => Some (AutoFix pkg u)
  | None => disk s !! clashConfPath pkg w
  end.
Proof.
  intros Hok. revert s. induction values as [| u values IH]; intros s;
    [reflexivity |].
  rewrite exec_reload_loop_cons, IH, reload_one_disk, Hok.
  cbn [List.filter set_trace writes disk write_disk]. unfold accepted at 2.
  destruct (CheckConfig pkg (AutoFix pkg u)) as [cc | err].
  - rewrite last_cons, lookup_insert_eq.
    destruct (last (List.filter (accepted pkg) values)); reflexivity.
  - reflexivity.
Qed.

(** A turn calls [os.WriteFile] once when it accepts its value, and not at
    all when it rejects it. *)
Lemma reload_one_writes (u : string) (s : St) :
  writes (exec (reload_one pkg w u) s) =
  (writes s + if accepted pkg u then 1 else 0)%nat.
Proof.
  unfold accepted. destruct s as [t g dk nw nr ch c].
  remember (exec (reload_one pkg w u) _) as s' eqn:Hr.
  turn_cases Hr; subst s'; cbn [writes]; lia.
Qed.

(** The last value the loop accepts decides the file, if its write
    succeeds; the writes before it may fail.  The accepted values are
    written by the calls numbered from [writes s] on. *)
Lemma reload_loop_disk_last (values : list string) (s : St) :
  match last (List.filter (accepted pkg) values) with
  | Some u =>
      WriteFile_outcome w
        (writes s + length (List.filter (accepted pkg) values) - 1) = WriteOk ->
      disk (exec (reload_loop pkg w values) s) !! clashConfPath pkg w =
        Some (AutoFix pkg u)
  | None =>
      disk (exec (reload_loop pkg w values) s) !! clashConfPath pkg w =
        disk s !! clashConfPath pkg w
  end.
Proof.
  revert s. induction values as [| u values IH]; intros s; [reflexivity |].
  rewrite exec_reload_loop_cons.
  specialize (IH (exec (reload_one pkg w u) (set_trace (trace s ++ [EvRecv u]) s))).
  rewrite reload_one_writes, reload_one_disk in IH.
  cbn [set_trace writes disk] in IH. cbn [List.filter].
  destruct (accepted pkg u) eqn:Hacc; unfold accepted in Hacc;
    destruct (CheckConfig pkg (AutoFix pkg u)) as [cc | err];
    try discriminate Hacc; clear Hacc.
  - rewrite last_cons. cbn [length].
    destruct (last (List.filter (accepted pkg) values)) as [y |] eqn:Hlast.
    + intros Hok. apply IH.
      replace (writes s + 1 + length (List.filter (accepted pkg) values) - 1)%nat
        with (writes s + S (length (List.filter (accepted pkg) values)) - 1)%nat
        by lia.
      exact Hok.
    + apply last_None in Hlast. rewrite Hlast. cbn [length]. intros Hok.
      replace (writes s + 1 - 1)%nat with (writes s) in Hok by lia.
      rewrite IH, Hok. cbn [write_disk]. apply lookup_insert_eq.
  - destruct (last (List.filter (accepted pkg) values)) as [y |].
    + intros Hok. apply IH.
      replace (writes s + 0 + length (List.filter (accepted pkg) values) - 1)%nat
        with (writes s + length (List.filter (accepted pkg) values) - 1)%nat
        by lia.
      exact Hok.
    + exact IH.
Qed.

(** The last accepted value is an accepted value. *)
Lemma last_accepted_checked (values : list string) (u : string) :
  last (List.filter (accepted pkg) values) = Some u ->
  exists cc, CheckConfig pkg (AutoFix pkg u) = inl cc.
Proof.
  intros Hlast. apply last_Some_elem_of, list_elem_of_In, List.filter_In in Hlast.
  destruct Hlast as [_ Hacc]. unfold accepted in Hacc.
  destruct (CheckConfig pkg (AutoFix pkg u)) as [cc | err];
    [exists cc; reflexivity | discriminate Hacc].
Qed.

(** Every request a turn sends is the reload request of the configuration
    checked in that turn. *)
Lemma reload_one_requests (u : string) (s : St) (req : Request) :
  In (EvDo req) (trace (exec (reload_one pkg w u) s)) ->
  In (EvDo req) (trace s) \/
  exists cc,
    CheckConfig pkg (AutoFix pkg u) = inl cc /\ req = reload_request pkg w cc.
Proof.
  destruct s as [t g dk nw nr ch c].
  remember (exec (reload_one pkg w u) _) as s' eqn:Hr.
  turn_cases Hr; subst s'; cbn [trace]; rewrite <- ?app_assoc; cbn [app];
    intros Hin; apply in_app_or in Hin as [Hin | Hin]; try (left; exact Hin);
    locate Hin; injection Hin as <-; right; eexists; (split; [reflexivity |]);
    unfold reload_request, controller, Sprintf_path;
    use_answers;
    repeat match goal with
           | H : String.eqb _ _ = _ |- _ => rewrite H
           end;
    reflexivity.
Qed.

Lemma reload_loop_requests (values : list string) (s : St) (req : Request) :
  In (EvDo req) (trace (exec (reload_loop pkg w values) s)) ->
  In (EvDo req) (trace s) \/
  exists u cc,
    In u values /\
    CheckConfig pkg (AutoFix pkg u) = inl cc /\ req = reload_request pkg w cc.
Proof.
  revert s. induction values as [| u values IH]; intros s Hin.
  - left. exact Hin.
  - rewrite exec_reload_loop_cons in Hin.
    apply IH in Hin as [Hin | (u' & cc & Hu' & Hcc & Hreq)].
    + apply reload_one_requests in Hin as [Hin | (cc & Hcc & Hreq)].
      * cbn [set_trace trace] in Hin.
        apply in_app_or in Hin as [Hin | [Hin | []]];
          [left; exact Hin | discriminate Hin].
      * right. exists u, cc. repeat split; [left; reflexivity | | ]; assumption.
    + right. exists u', cc. repeat split; [right | | ]; assumption.
Qed.

(** *** The main goroutine *)

(** A run that launches the reload goroutine received exactly the first
    value itself, wrote it to the internal path, launched one goroutine,
    and handed it the rest of the channel. *)
Lemma Run_go (d : gmap string string) :
  let r := Run pkg w (init w d) in
  In EvGo (trace (snd r)) ->
  exists v rest s0,
    updateCh w = v :: rest /\
    trace s0 = [] /\
    writes s0 = 1%nat /\
    (exists cc, CheckConfig pkg v = inl cc) /\
    disk s0 = <[clashConfPath pkg w := v]> (startup_disk w d) /\
    recvs (trace (snd r)) = [v] /\
    length (List.filter is_Go (trace (snd r))) = 1%nat /\
    go_trace (snd r) = trace (exec (reload_loop pkg w rest) s0) /\
    disk (snd r) = disk (exec (reload_loop pkg w rest) s0).
Proof.
  intros r H. apply (In_existsb is_Go) in H; [| reflexivity].
  revert H. remember (Run pkg w (init w d)) as r0 eqn:Hr. subst r.
  run_cases Hr; subst r0; read_trace; intros H; try discriminate H; clear H.
  all: match goal with
       | Hx : exec (reload_loop pkg w ?l) ?s0 = _ |- context [?v :: ?l] =>
           exists v, l, s0; rewrite Hx
       end.
  all: unfold startup_disk; read_trace.
  all: split; [reflexivity |]. all: split; [reflexivity |].
  all: split; [reflexivity |]. all: split; [eexists; eassumption |].
  all: repeat split.
Qed.

(** C9: with the print-version flag set, [Run] prints the banner and
    returns; it calls nothing else, receives nothing from the channel,
    starts no goroutine, and leaves the disk and the context as they
    were. *)
Theorem print_version_only (d : gmap string string) :
  PrintVersion (conf w) = true ->
  let r := Run pkg w (init w d) in
  fst r = Val tt /\
  trace (snd r) =
    [EvPrintf banner [AStr (logo pkg); AStr (version pkg); AStr (build pkg);
                      AStr (clash pkg); AStr (commit pkg)]] /\
  none_of is_effect (trace (snd r)) = true /\
  go_trace (snd r) = [] /\
  disk (snd r) = d /\
  writes (snd r) = 0%nat /\
  requests (snd r) = 0%nat /\
  chan (snd r) = updateCh w /\
  cancelled (snd r) = false.
Proof.
  intros Hv r. subst r. unfold Run. rewrite Hv.
  cbv [emit init set_trace]. read_trace. repeat split.
Qed.

(** C1: in every run that gets past [<-ctx.Done()], the events from there
    on are: the stopping log, [DisableProxy], the log of its error if it
    failed, then [Kill] (with the log of its error) exactly when
    [cmd.Process] is not nil, then the stopped log and the deferred
    [cancel]; no [DisableProxy] and no [Kill] happens before, and [Run]
    returns.  Which of the three signals ended the wait does not matter. *)
Theorem shutdown_disables_before_kill (d : gmap string string) :
  let r := Run pkg w (init w d) in
  In EvDone (trace (snd r)) ->
  exists pre pm,
    NewProxyMode_result w = inl pm /\
    none_of is_teardown pre = true /\
    trace (snd r) =
      pre ++ [EvDone; log_stopping; EvDisableProxy (DisableProxy pm)]
          ++ opt_log (DisableProxy pm)
          ++ kill_step w
          ++ [log_stopped; EvCancel] /\
    fst r = Val tt.
Proof.
  intros r H. apply (In_existsb is_Done) in H; [| reflexivity].
  revert H. remember (Run pkg w (init w d)) as r0 eqn:Hr. subst r.
  run_cases Hr; subst r0; read_trace; intros H; try discriminate H; clear H.
  all: match goal with
       | Hpm : NewProxyMode_result w = inl ?p |- exists pre pm, _ /\ _ /\ ?t = _ /\ _ =>
           exists (before is_Done t), p
       end.
  all: unfold kill_step, log_stopping, log_stopped; use_answers; read_trace;
    repeat split.
Qed.

(** C2: once the run reads [updateCh] it waits there while the channel is
    empty; if the first value fails [CheckConfig], the run logs the error
    at fatal level and exits with status 1 straight after the receive,
    having neither started the engine nor enabled the proxy, with no
    reload goroutine and no [os.WriteFile]: the files are as [Sysctl],
    [ExtractFiles] and [WatchConfig] left them.  Whenever an engine start or
    a proxy enable appears in a trace, the first value was received
    before it and passed the check. *)
Theorem first_config_gates_startup (d : gmap string string) :
  watching w ->
  let r := Run pkg w (init w d) in
  (updateCh w = [] ->
     fst r = Blocked /\ none_of is_bringup (trace (snd r)) = true) /\
  (forall v rest err,
     updateCh w = v :: rest -> CheckConfig pkg v = inr err ->
     fst r = Exited 1 /\
     (exists pre,
        trace (snd r) = pre ++ [EvRecv v; EvLog FatalLevel "%v" [AStr err]]) /\
     none_of is_bringup (trace (snd r)) = true /\
     go_trace (snd r) = [] /\
     none_of is_WriteFile (trace (snd r)) = true /\
     disk (snd r) = startup_disk w d) /\
  (none_of is_bringup (trace (snd r)) = false ->
     exists v rest cc,
       updateCh w = v :: rest /\ CheckConfig pkg v = inl cc /\
       In (EvRecv v) (before is_bringup (trace (snd r)))).
Proof.
  intros (Hv & Hs & He & Hw) r.
  remember (Run pkg w (init w d)) as r0 eqn:Hr. subst r.
  run_cases Hr; subst r0; read_trace; try congruence.
  all: split; [| split].
  all: lazymatch goal with
       | |- _ = [] -> _ =>
           intros Hnil; first [congruence | split; reflexivity]
       | |- forall v rest err, _ =>
           intros v rest err Hch Hck;
           first [ congruence
                 | injection Hch as <- <-;
                   first [ congruence
                         | match goal with
                           | H : CheckConfig pkg ?s = inr ?e |- _ =>
                               assert (e = err) by congruence; subst e
                           end;
                           repeat split;
                           match goal with
                           | |- exists pre, ?t = _ =>
                               exists (before is_Recv t); reflexivity
                           end ] ]
       | |- _ = false -> _ =>
           intros Hb;
           first [ discriminate Hb
                 | eexists _, _, _;
                   split; [reflexivity | split; [eassumption | found]] ]
       end.
Qed.

(** C4: a failing [EnableProxy] is followed by the fatal log and exit
    status 1, with no reload goroutine and no shutdown step; a failing
    [DisableProxy] is followed by the log of its error, after which the
    shutdown goes on as it does after a successful one: [Kill] when
    [cmd.Process] is not nil, the stopped log, and [Run] returns. *)
Theorem enable_failure_fatal_disable_failure_logged (d : gmap string string) :
  let r := Run pkg w (init w d) in
  (forall err,
     In (EvEnableProxy (Some err)) (trace (snd r)) ->
     fst r = Exited 1 /\
     (exists pre,
        trace (snd r) =
          pre ++ [EvEnableProxy (Some err);
                  EvLog FatalLevel "[main] failed to enable proxy: %v" [AStr err]]) /\
     none_of is_Go (trace (snd r)) = true /\
     none_of is_teardown (trace (snd r)) = true /\
     go_trace (snd r) = []) /\
  (forall err,
     In (EvDisableProxy (Some err)) (trace (snd r)) ->
     fst r = Val tt /\
     exists pre,
       none_of is_teardown pre = true /\
       trace (snd r) =
         pre ++ [EvDisableProxy (Some err); EvLog ErrorLevel "%v" [AStr err]]
             ++ kill_step w
             ++ [log_stopped; EvCancel]).
Proof.
  intros r. split; intros err H.
  - pose proof (In_existsb failed_EnableProxy _ _ H eq_refl) as Hb.
    revert H Hb. remember (Run pkg w (init w d)) as r0 eqn:Hr. subst r.
    run_cases Hr; subst r0; read_trace; intros H Hb; try discriminate Hb.
    all: locate H; injection H as <-.
    all: repeat split.
    all: match goal with
         | |- exists pre, ?t = _ => exists (before is_EnableProxy t); reflexivity
         end.
  - pose proof (In_existsb failed_DisableProxy _ _ H eq_refl) as Hb.
    revert H Hb. remember (Run pkg w (init w d)) as r0 eqn:Hr. subst r.
    run_cases Hr; subst r0; read_trace; intros H Hb; try discriminate Hb.
    all: locate H; injection H as <-.
    all: split; [reflexivity |].
    all: match goal with
         | |- exists pre, _ /\ ?t = _ => exists (before is_DisableProxy t)
         end.
    all: unfold kill_step, log_stopped; use_answers; read_trace; repeat split.
Qed.

(** The main goroutine after a failed [cmd.Start]. *)
Lemma start_failure_trace (d : gmap string string) :
  let r := Run pkg w (init w d) in
  forall err,
    In (EvStart (cmd_Args pkg w) (Some err)) (trace (snd r)) ->
    exists pre post,
      trace (snd r) =
        pre ++ [EvStart (cmd_Args pkg w) (Some err);
                EvLog ErrorLevel "%v" [AStr err]; EvCancel] ++ post /\
      (exists res, In (EvNewProxyMode res) post) /\
      (forall pm,
         NewProxyMode_result w = inl pm ->
         In (EvEnableProxy (EnableProxy pm)) post /\
         (EnableProxy pm = None ->
          In EvGo post /\ In EvDone post /\ fst r = Val tt /\
          chan (snd r) = [])).
Proof.
  intros r err H.
  pose proof (In_existsb failed_Start _ _ H eq_refl) as Hb.
  revert H Hb. remember (Run pkg w (init w d)) as r0 eqn:Hr. subst r.
  run_cases Hr; subst r0; read_trace; intros H Hb; try discriminate Hb.
  all: locate H; injection H as <-.
  all: match goal with
       | |- exists pre post, ?t = _ /\ _ =>
           exists (before is_Start t), (skipn 2 (after is_Start t))
       end.
  all: read_trace; split; [reflexivity |]; split; [eexists; found |].
  all: intros pm Hpm; try discriminate Hpm; injection Hpm as <-.
  all: use_answers; split; [found |].
  all: intros Hen; try discriminate Hen.
  all: split; [found |]. all: split; [found |]. all: split; reflexivity.
Qed.

(** C7: when [cmd.Start] returns an error, the error is logged and
    [cancel] is called, and the run goes on: [NewProxyMode] is called;
    if it gives a proxy mode, [EnableProxy] is attempted; if that
    succeeds, the reload goroutine is launched and consumes the channel:
    it takes every value after the first and goes through one finished
    turn of the reload loop for each, in order.  The wait on the
    cancelled context then returns at once and [Run] ends through the
    shutdown path. *)
Theorem start_failure_falls_through (d : gmap string string) :
  let r := Run pkg w (init w d) in
  forall err,
    In (EvStart (cmd_Args pkg w) (Some err)) (trace (snd r)) ->
    exists pre post,
      trace (snd r) =
        pre ++ [EvStart (cmd_Args pkg w) (Some err);
                EvLog ErrorLevel "%v" [AStr err]; EvCancel] ++ post /\
      (exists res, In (EvNewProxyMode res) post) /\
      (forall pm,
         NewProxyMode_result w = inl pm ->
         In (EvEnableProxy (EnableProxy pm)) post /\
         (EnableProxy pm = None ->
          In EvGo post /\ In EvDone post /\ fst r = Val tt /\
          exists v rest turns,
            updateCh w = v :: rest /\
            chan (snd r) = [] /\
            go_trace (snd r) = concat turns /\
            Forall2 (turn pkg w) rest turns)).
Proof.
  intros r err H. subst r.
  destruct (start_failure_trace d err H) as (pre & post & Htr & Hnpm & Hrest).
  exists pre, post. split; [exact Htr |]. split; [exact Hnpm |].
  intros pm Hpm. destruct (Hrest pm Hpm) as (Hen & Hgo).
  split; [exact Hen |]. intros He.
  destruct (Hgo He) as (Hg & Hd & Hret & Hchan).
  split; [exact Hg |]. split; [exact Hd |]. split; [exact Hret |].
  assert (Hin : In EvGo (trace (snd (Run pkg w (init w d))))).
  { rewrite Htr. apply in_or_app. right. apply in_or_app. right. exact Hg. }
  destruct (Run_go d Hin)
    as (v & rest & s0 & Hch & Ht0 & _ & _ & _ & _ & _ & Hgt & _).
  destruct (reload_loop_turns rest s0) as (turns & Hturns & Hall).
  rewrite Ht0 in Hturns. cbn [app] in Hturns.
  exists v, rest, turns. rewrite Hgt, Hturns. repeat split; assumption.
Qed.

(** Without the launch there is no goroutine trace. *)
Lemma Run_go_trace (d : gmap string string) :
  let r := Run pkg w (init w d) in
  go_trace (snd r) = [] \/ In EvGo (trace (snd r)).
Proof.
  intros r. remember (Run pkg w (init w d)) as r0 eqn:Hr. subst r.
  run_cases Hr; subst r0; read_trace;
    first [left; reflexivity | right; found].
Qed.

(** Once the goroutine is launched, any of the three signals ends the
    wait on the context. *)
Lemma any_signal_ends_the_wait (d : gmap string string) (sig : Signal) :
  let r := Run pkg w (init w d) in
  signal w = Some sig ->
  In EvGo (trace (snd r)) ->
  In EvDone (trace (snd r)).
Proof.
  intros r Hsig H. apply (In_existsb is_Go) in H; [| reflexivity].
  revert H. remember (Run pkg w (init w d)) as r0 eqn:Hr. subst r.
  run_cases Hr; subst r0; read_trace; intros H;
    first [discriminate H | discriminate Hsig | found].
Qed.

(** *** The steady state *)

(** C8: in a run that launches the reload goroutine, the main goroutine
    received the first value only and launched one goroutine; the
    goroutine's trace is one finished turn per remaining value, in channel
    order.  A finished turn starts with the receive of its value and runs
    to the last log line of the loop body for that value: the check of
    its fixed text, then, if it passes, the write, the request built from
    its configuration, the answer of [cli.Do], and the log of the outcome.
    So the next value is received only after the turn before is over, the
    answer to its request included, and no receive or request falls
    between a request and its answer. *)
Theorem reload_consumer_one_at_a_time (d : gmap string string) :
  let r := Run pkg w (init w d) in
  In EvGo (trace (snd r)) ->
  exists v rest turns,
    updateCh w = v :: rest /\
    recvs (trace (snd r)) = [v] /\
    length (List.filter is_Go (trace (snd r))) = 1%nat /\
    go_trace (snd r) = concat turns /\
    Forall2 (turn pkg w) rest turns /\
    recvs (go_trace (snd r)) = rest /\
    one_at_a_time false (go_trace (snd r)) = true.
Proof.
  intros r H. subst r.
  destruct (Run_go d H) as (v & rest & s0 & Hch & Ht0 & _ & _ & _ & Hv & Hgo & Htr & _).
  destruct (reload_loop_turns rest s0) as (turns & Hturns & Hall).
  rewrite Ht0 in Hturns. cbn [app] in Hturns.
  destruct (turns_in_order _ _ Hall) as [Hrecvs Hseq].
  exists v, rest, turns. rewrite Htr, Hturns. repeat split; assumption.
Qed.

(** C3, amended: a value whose fixed text fails [CheckConfig] costs two log
    lines and nothing else: no write, no request, the state is otherwise
    as before.  In a run that launches the reload goroutine, if the write
    made for the last value the loop accepted succeeds (the writes before
    it may fail), the internal configuration file ends up with the text
    checked and written for that value, its text after [AutoFix], or with
    the start-up configuration when the loop accepted none; that text
    passes [CheckConfig]. *)
Theorem reload_persists_last_accepted (d : gmap string string) :
  let r := Run pkg w (init w d) in
  (forall u s err,
     CheckConfig pkg (AutoFix pkg u) = inr err ->
     reload_one pkg w u s =
       (Val tt, set_trace (trace s ++ [log_changed; log_skipping err]) s)) /\
  (In EvGo (trace (snd r)) ->
   exists v rest,
     updateCh w = v :: rest /\
     (WriteFile_outcome w (length (List.filter (accepted pkg) rest)) = WriteOk ->
      let persisted :=
        default v (AutoFix pkg <$> last (List.filter (accepted pkg) rest)) in
      disk (snd r) !! clashConfPath pkg w = Some persisted /\
      exists cc, CheckConfig pkg persisted = inl cc)).
Proof.
  intros r. subst r. split.
  - intros u s err Hck. destruct s as [t g dk nw nr ch c].
    remember (reload_one pkg w u _) as r0 eqn:Hr.
    turn_cases Hr; subst r0; try congruence.
    replace err with e by congruence.
    unfold log_changed, log_skipping, set_trace. cbn [trace].
    rewrite <- app_assoc. reflexivity.
  - intros H.
    destruct (Run_go d H)
      as (v & rest & s0 & Hch & _ & Hw0 & Hv0 & Hd0 & _ & _ & _ & Hdisk).
    exists v, rest. split; [exact Hch |]. intros Hok. cbv zeta.
    rewrite Hdisk. pose proof (reload_loop_disk_last rest s0) as Hlast.
    pose proof (last_accepted_checked rest) as Hchecked.
    rewrite Hw0 in Hlast.
    destruct (last (List.filter (accepted pkg) rest)) as [u |]; cbn [fmap option_fmap
      option_map default].
    + split; [| apply Hchecked; reflexivity].
      apply Hlast.
      replace (1 + length (List.filter (accepted pkg) rest) - 1)%nat
        with (length (List.filter (accepted pkg) rest)) by lia.
      exact Hok.
    + split; [| exact Hv0]. rewrite Hlast, Hd0. apply lookup_insert_eq.
Qed.

(** C5: for a value whose fixed text passes [CheckConfig], once the file
    is written and the request is built, the loop sends PUT
    http://ADDR/configs with the single header Authorization: Bearer
    SECRET and the body {"path": "PATH"}, where PATH is the internal
    configuration path, SECRET the configuration's secret, and ADDR its
    external controller, or 127.0.0.1:9090 when that is empty.  The
    answer is reported as a failure exactly when its status is outside
    200..299. *)
Theorem reload_request_shape (u : string) (s : St) (cc : ClashConf) :
  CheckConfig pkg (AutoFix pkg u) = inl cc ->
  WriteFile_outcome w (writes s) = WriteOk ->
  url_Parse_err pkg ("http://" +:+ controller cc +:+ "/configs") = None ->
  let req :=
    {| Method := "PUT";
       URL := "http://" +:+ controller cc +:+ "/configs";
       Header := [("Authorization", "Bearer " +:+ Secret cc)];
       Body := "{" +:+ dquote +:+ "path" +:+ dquote +:+ ": " +:+ dquote
                 +:+ clashConfPath pkg w +:+ dquote +:+ "}" |} in
  let answer := Do_result w (requests s) req in
  (ExternalController cc = "" -> controller cc = "127.0.0.1:9090") /\
  (ExternalController cc <> "" -> controller cc = ExternalController cc) /\
  exists tail,
    trace (exec (reload_one pkg w u) s) =
      trace s ++ [log_changed;
                  EvWriteFile (clashConfPath pkg w) (AutoFix pkg u) WriteOk;
                  EvDo req; EvDoReturn answer] ++ tail /\
    forall resp,
      answer = inl resp ->
      (In (reload_failed_status resp) tail <->
       ~ (200 <= StatusCode resp <= 299)).
Proof.
  intros Hck Hwr Hurl req answer. split; [| split].
  - intros He. unfold controller. rewrite He. reflexivity.
  - intros He. unfold controller.
    destruct (String.eqb_spec (ExternalController cc) ""); [contradiction | reflexivity].
  - subst req answer. unfold controller in *.
    destruct s as [t g dk nw nr ch c]. cbn [writes requests] in *.
    remember (exec (reload_one pkg w u) _) as s' eqn:Hr.
    unfold_turn Hr. rewrite Hck in Hr. unfold_turn Hr.
    rewrite Hwr in Hr. unfold_turn Hr.
    destruct (String.eqb (ExternalController cc) ""); rewrite Hurl in Hr;
      turn_cases Hr; subst s';
      cbn [trace]; rewrite <- ?app_assoc; cbn [app];
      unfold log_changed, reload_failed_status;
      eexists; (split; [reflexivity |]); intros resp Hresp;
      try discriminate Hresp; injection Hresp as <-.
    + match goal with
      | H : is_2xx _ = true |- _ => apply is_2xx_spec in H
      end.
      split; [intros [Hin | []]; discriminate Hin | intros Hn; contradiction].
    + match goal with
      | H : is_2xx _ = false |- _ =>
          apply not_true_iff_false in H; rewrite is_2xx_spec in H
      end.
      split; [intros _; assumption | intros _; right; left; reflexivity].
    + match goal with
      | H : is_2xx _ = true |- _ => apply is_2xx_spec in H
      end.
      split; [intros [Hin | []]; discriminate Hin | intros Hn; contradiction].
    + match goal with
      | H : is_2xx _ = false |- _ =>
          apply not_true_iff_false in H; rewrite is_2xx_spec in H
      end.
      split; [intros _; assumption | intros _; right; left; reflexivity].
Qed.

(** C10: every request the reload goroutine sends comes from a value whose
    fixed text passed [CheckConfig], and its Authorization header is
    "Bearer " followed by that configuration's secret; with an empty
    secret the header is "Bearer " and nothing more. *)
Theorem reload_authorization_header (d : gmap string string) (req : Request) :
  let r := Run pkg w (init w d) in
  In (EvDo req) (go_trace (snd r)) ->
  exists u cc,
    In u (tail (updateCh w)) /\
    CheckConfig pkg (AutoFix pkg u) = inl cc /\
    Header_Get "Authorization" req = Some ("Bearer " +:+ Secret cc) /\
    (Secret cc = "" -> Header_Get "Authorization" req = Some "Bearer ").
Proof.
  intros r Hin. subst r.
  destruct (Run_go_trace d) as [Hnil | Hgo].
  - rewrite Hnil in Hin. destruct Hin.
  - destruct (Run_go d Hgo) as (v & rest & s0 & Hch & Ht0 & _ & _ & _ & _ & _ & Htr & _).
    rewrite Htr in Hin.
    apply reload_loop_requests in Hin as [Hin | (u & cc & Hu & Hcc & ->)].
    + rewrite Ht0 in Hin. destruct Hin.
    + exists u, cc. rewrite Hch. split; [exact Hu |]. split; [exact Hcc |].
      split; [reflexivity |].
      intros Hs. unfold reload_request, Header_Get.
      cbn [Header List.filter fst snd String.eqb Ascii.eqb Bool.eqb].
      rewrite Hs. reflexivity.
Qed.

End Properties.

(** ** The theorems at work *)

Lemma print_version_only_witness :
  PrintVersion (conf w_version) = true /\
  let r := Run pkg_plain w_version (init w_version ∅) in
  fst r = Val tt /\
  trace (snd r) =
    [EvPrintf banner [AStr "tpclash"; AStr "v0"; AStr "b0"; AStr "c0";
                      AStr "0000000"]] /\
  disk (snd r) = ∅.
Proof.
  split; [reflexivity |].
  destruct (print_version_only pkg_plain w_version ∅ eq_refl)
    as (Hret & Htrace & _ & _ & Hdisk & _).
  repeat split; assumption.
Defined.

Lemma shutdown_disables_before_kill_witness :
  Forall
    (fun sig =>
       let w := with_signal (Some sig) w_quiet in
       let r := Run pkg_plain w (init w ∅) in
       In EvDone (trace (snd r)) /\
       exists pre,
         none_of is_teardown pre = true /\
         trace (snd r) =
           pre ++ [EvDone; log_stopping; EvDisableProxy None; EvKill None;
                   log_stopped; EvCancel])
    [SIGINT; SIGTERM; SIGHUP].
Proof.
  constructor; [| constructor; [| constructor; [| constructor]]].
  all: cbv beta zeta.
  all: match goal with
       | |- In _ (trace (snd (Run ?p ?w (init ?w ?d)))) /\ _ =>
           assert (H : In EvDone (trace (snd (Run p w (init w d)))))
             by (vm_compute; found);
           split; [exact H |];
           destruct (shutdown_disables_before_kill p w d H)
             as (pre & pm & Hpm & Hpre & Htrace & _)
       end.
  all: injection Hpm as <-; exists pre; split; assumption.
Defined.

Lemma first_config_gates_startup_witness :
  watching w_bad_first /\
  watching w_silent /\
  fst (Run pkg_plain w_bad_first (init w_bad_first ∅)) = Exited 1 /\
  none_of is_bringup
    (trace (snd (Run pkg_plain w_bad_first (init w_bad_first ∅)))) = true /\
  fst (Run pkg_plain w_silent (init w_silent ∅)) = Blocked.
Proof.
  assert (Hbad : watching w_bad_first) by (repeat split; reflexivity).
  assert (Hsilent : watching w_silent) by (repeat split; reflexivity).
  split; [exact Hbad |]. split; [exact Hsilent |].
  destruct (first_config_gates_startup pkg_plain w_bad_first ∅ Hbad)
    as (_ & Hfatal & _).
  destruct (Hfatal "" ["port: 7890"] "empty config" eq_refl eq_refl)
    as (Hexit & _ & Hnone & _).
  destruct (first_config_gates_startup pkg_plain w_silent ∅ Hsilent)
    as (Hwait & _).
  destruct (Hwait eq_refl) as (Hblocked & _).
  repeat split; assumption.
Defined.

(** C3 as the specification states it fails on the code: when the disk
    refuses the write of an accepted value, the file keeps the start-up
    configuration although a later valid update exists.  (The fixer
    changes nothing here, so the update is valid before and after it.) *)
Lemma persisted_is_not_last_valid_update :
  accepted pkg_plain "port: 7891" = true /\
  disk (snd (Run pkg_plain w_disk_full (init w_disk_full ∅)))
    !! clashConfPath pkg_plain w_disk_full
  <> Some (spec_persisted pkg_plain "port: 7890" ["port: 7891"]).
Proof.
  split; [reflexivity |]. vm_compute. intros H. discriminate H.
Qed.

Lemma reload_persists_last_accepted_witness :
  let r := Run pkg_plain w_retry (init w_retry ∅) in
  In EvGo (trace (snd r)) /\
  WriteFile_outcome w_retry 1 = OpenErr "no space left on device" /\
  WriteFile_outcome w_retry 2 = WriteOk /\
  disk (snd r) !! clashConfPath pkg_plain w_retry = Some "port: 7892".
Proof.
  cbv zeta.
  assert (Hgo : In EvGo (trace (snd (Run pkg_plain w_retry (init w_retry ∅)))))
    by (vm_compute; found).
  split; [exact Hgo |]. split; [reflexivity |]. split; [reflexivity |].
  destruct (reload_persists_last_accepted pkg_plain w_retry ∅) as (_ & Hrun).
  destruct (Hrun Hgo) as (v & rest & Hch & Hlast).
  injection Hch as <- <-.
  destruct (Hlast eq_refl) as (Hdisk & _). exact Hdisk.
Defined.

Lemma enable_failure_fatal_disable_failure_logged_witness :
  (let r := Run pkg_plain w_enable_fails (init w_enable_fails ∅) in
   In (EvEnableProxy (Some "iptables: not found")) (trace (snd r)) /\
   fst r = Exited 1 /\ go_trace (snd r) = []) /\
  (let r := Run pkg_plain w_disable_fails (init w_disable_fails ∅) in
   In (EvDisableProxy (Some "iptables: no chain")) (trace (snd r)) /\
   fst r = Val tt /\
   exists pre,
     trace (snd r) =
       pre ++ [EvDisableProxy (Some "iptables: no chain");
               EvLog ErrorLevel "%v" [AStr "iptables: no chain"];
               EvKill None; log_stopped; EvCancel]).
Proof.
  split.
  - assert (H : In (EvEnableProxy (Some "iptables: not found"))
                  (trace (snd (Run pkg_plain w_enable_fails (init w_enable_fails ∅)))))
      by (vm_compute; found).
    split; [exact H |].
    destruct (enable_failure_fatal_disable_failure_logged pkg_plain w_enable_fails ∅)
      as (Hen & _).
    destruct (Hen _ H) as (Hexit & _ & _ & _ & Hgo).
    split; assumption.
  - assert (H : In (EvDisableProxy (Some "iptables: no chain"))
                  (trace (snd (Run pkg_plain w_disable_fails (init w_disable_fails ∅)))))
      by (vm_compute; found).
    split; [exact H |].
    destruct (enable_failure_fatal_disable_failure_logged pkg_plain w_disable_fails ∅)
      as (_ & Hdis).
    destruct (Hdis _ H) as (Hret & pre & _ & Htrace).
    split; [exact Hret |]. exists pre. exact Htrace.
Defined.

Lemma reload_request_shape_witness :
  CheckConfig pkg_plain (AutoFix pkg_plain "port: 7891") = inl cc_plain /\
  WriteFile_outcome w_quiet (writes (init w_quiet ∅)) = WriteOk /\
  url_Parse_err pkg_plain ("http://" +:+ controller cc_plain +:+ "/configs") = None /\
  exists tail,
    trace (exec (reload_one pkg_plain w_quiet "port: 7891") (init w_quiet ∅)) =
      [log_changed;
       EvWriteFile "/data/clash/config.yaml" "port: 7891" WriteOk;
       EvDo {| Method := "PUT";
               URL := "http://127.0.0.1:9090/configs";
               Header := [("Authorization", "Bearer ")];
               Body := Sprintf_path "/data/clash/config.yaml" |};
       EvDoReturn (inl {| StatusCode := 204; RespBody := "" |})] ++ tail.
Proof.
  repeat (split; [reflexivity |]).
  destruct (reload_request_shape pkg_plain w_quiet "port: 7891" (init w_quiet ∅)
              cc_plain eq_refl eq_refl eq_refl)
    as (_ & _ & tail & Htrace & _).
  exists tail. exact Htrace.
Defined.

Lemma start_failure_falls_through_witness :
  let r := Run pkg_plain w_no_engine (init w_no_engine ∅) in
  In (EvStart (cmd_Args pkg_plain w_no_engine)
        (Some "fork/exec /data/clash/clash: permission denied"))
     (trace (snd r)) /\
  exists pre post,
    trace (snd r) =
      pre ++ [EvStart (cmd_Args pkg_plain w_no_engine)
                (Some "fork/exec /data/clash/clash: permission denied");
              EvLog ErrorLevel "%v"
                [AStr "fork/exec /data/clash/clash: permission denied"];
              EvCancel] ++ post /\
    In (EvEnableProxy None) post /\ In EvGo post /\ In EvDone post /\
    fst r = Val tt /\
    exists turns,
      go_trace (snd r) = concat turns /\
      Forall2 (turn pkg_plain w_no_engine) ["port: 7891"; "port: 7892"] turns.
Proof.
  cbv zeta.
  assert (H : In (EvStart (cmd_Args pkg_plain w_no_engine)
                    (Some "fork/exec /data/clash/clash: permission denied"))
                (trace (snd (Run pkg_plain w_no_engine (init w_no_engine ∅)))))
    by (vm_compute; found).
  split; [exact H |].
  destruct (start_failure_falls_through pkg_plain w_no_engine ∅ _ H)
    as (pre & post & Htrace & _ & Hpm).
  destruct (Hpm pm_ok eq_refl) as (Hen & Hgo).
  destruct (Hgo eq_refl) as (Hg & Hd & Hret & v & rest & turns & Hch & _ & Hgt & Hall).
  injection Hch as <- <-.
  exists pre, post. repeat split; try assumption.
  exists turns. split; assumption.
Defined.

Lemma reload_consumer_one_at_a_time_witness :
  let r := Run pkg_plain w_quiet (init w_quiet ∅) in
  In EvGo (trace (snd r)) /\
  recvs (trace (snd r)) = ["port: 7890"] /\
  recvs (go_trace (snd r)) = ["port: 7891"; "port: 7892"] /\
  one_at_a_time false (go_trace (snd r)) = true /\
  exists turns,
    go_trace (snd r) = concat turns /\
    Forall2 (turn pkg_plain w_quiet) ["port: 7891"; "port: 7892"] turns.
Proof.
  cbv zeta.
  assert (H : In EvGo (trace (snd (Run pkg_plain w_quiet (init w_quiet ∅)))))
    by (vm_compute; found).
  split; [exact H |].
  destruct (reload_consumer_one_at_a_time pkg_plain w_quiet ∅ H)
    as (v & rest & turns & Hch & Hfirst & _ & Hgt & Hall & Hrest & Hseq).
  injection Hch as <- <-. repeat split; try assumption.
  exists turns. split; assumption.
Defined.

Lemma reload_authorization_header_witness :
  let r := Run pkg_plain w_quiet (init w_quiet ∅) in
  let req := reload_request pkg_plain w_quiet cc_plain in
  In (EvDo req) (go_trace (snd r)) /\
  Header_Get "Authorization" req = Some "Bearer ".
Proof.
  cbv zeta.
  assert (H : In (EvDo (reload_request pkg_plain w_quiet cc_plain))
                (go_trace (snd (Run pkg_plain w_quiet (init w_quiet ∅)))))
    by (vm_compute; found).
  split; [exact H |].
  destruct (reload_authorization_header pkg_plain w_quiet ∅ _ H)
    as (u & cc & _ & Hcc & _ & Hempty).
  cbn [CheckConfig AutoFix pkg_plain] in Hcc.
  destruct (String.eqb u ""); [discriminate Hcc |].
  injection Hcc as <-. exact (Hempty eq_refl).
Defined.

(** C6: the engine answers 500 to the reload of "port: 7891".  The loop
    reads the body and logs the failure with status and body, and then,
    having no [continue] in that branch, logs that the reload succeeded. *)
Theorem non_2xx_reload_still_logs_success :
  let r := Run pkg_plain w_reload_500 (init w_reload_500 ∅) in
  let resp := {| StatusCode := 500; RespBody := "yaml: line 3" |} in
  is_2xx (StatusCode resp) = false /\
  go_trace (snd r) =
    [EvRecv "port: 7891"; log_changed;
     EvWriteFile "/data/clash/config.yaml" "port: 7891" WriteOk;
     EvDo (reload_request pkg_plain w_reload_500 cc_plain);
     EvDoReturn (inl resp);
     EvReadBody (RespBody resp);
     reload_failed_status resp;
     reload_success].
Proof.
  split; vm_compute; reflexivity.
Qed.

(** ** Further properties of [Run] *)

Section Lifecycle.

Variable pkg : Package.
Variable w : World.

(** X1: in every run the steps Sysctl, ExtractFiles, WatchConfig, first
    receive, start-up write, cmd.Start, NewProxyMode, EnableProxy, launch
    of the reload goroutine, end of the wait, DisableProxy, Kill occur in
    this order, each at most once, and none is reached without all the
    earlier ones (Kill, the last, may be left out). *)
Theorem lifecycle_steps_in_order (d : gmap string string) :
  let r := Run pkg w (init w d) in
  ranks (trace (snd r)) = seq 0 (length (ranks (trace (snd r)))).
Proof.
  intros r. remember (Run pkg w (init w d)) as r0 eqn:Hr. subst r.
  run_cases Hr; subst r0; cbn [snd trace ranks rank length seq]; reflexivity.
Qed.

(** X2: a run that ends by [os.Exit] has not reached the end of the wait,
    has launched no reload goroutine, and has called neither DisableProxy
    nor Kill; when the exit comes from NewProxyMode or EnableProxy, the
    engine had been started before and is left running. *)
Theorem fatal_exit_skips_teardown (d : gmap string string) (code : Z) :
  let r := Run pkg w (init w d) in
  fst r = Exited code ->
  none_of is_teardown (trace (snd r)) = true /\
  none_of is_Done (trace (snd r)) = true /\
  go_trace (snd r) = [] /\
  (forall res,
     In (EvNewProxyMode res) (trace (snd r)) ->
     In (EvStart (cmd_Args pkg w) (Start_err w)) (trace (snd r))).
Proof.
  intros r. remember (Run pkg w (init w d)) as r0 eqn:Hr. subst r.
  run_cases Hr; subst r0; read_trace; intros Hexit; try discriminate Hexit.
  all: repeat split; intros res Hin; try (locate Hin; fail).
  all: use_answers; found.
Qed.

(** X3: once the reload goroutine is launched, [Run] stays in the wait for
    good exactly when no signal comes, [cmd.Start] returned no error and
    left a process; in every other case the wait ends and [Run] returns
    through the shutdown path. *)
Theorem steady_state_blocks_iff (d : gmap string string) :
  let r := Run pkg w (init w d) in
  In EvGo (trace (snd r)) ->
  (fst r = Blocked <->
   signal w = None /\ Start_err w = None /\ Start_Process w <> None) /\
  (fst r <> Blocked -> fst r = Val tt /\ In EvDone (trace (snd r))).
Proof.
  intros r H. apply (In_existsb is_Go) in H; [| reflexivity].
  revert H. remember (Run pkg w (init w d)) as r0 eqn:Hr. subst r.
  run_cases Hr; subst r0; read_trace; intros H; try discriminate H; clear H.
  all: split;
    [ split;
      [ intros Hb; first [discriminate Hb | repeat split; congruence]
      | intros (Hs & He & Hp); first [reflexivity | congruence] ]
    | intros Hnb; first [ split; [reflexivity | found] | congruence ] ].
Qed.

(** X4: the main goroutine writes one file at most: the first value of the
    channel, as received, to the internal configuration path.  If that
    write fails the run exits at once, with the engine not started and
    the proxy not enabled; so whenever [cmd.Start] is called, the file
    named by its -f argument was written in full just before. *)
Theorem startup_write_gates_start (d : gmap string string)
    (name data : string) (out : WriteOutcome) :
  let r := Run pkg w (init w d) in
  In (EvWriteFile name data out) (trace (snd r)) ->
  (exists rest, updateCh w = data :: rest) /\
  name = clashConfPath pkg w /\
  out = WriteFile_outcome w 0 /\
  count is_WriteFile (trace (snd r)) = 1%nat /\
  (out <> WriteOk ->
   fst r = Exited 1 /\
   none_of is_bringup (trace (snd r)) = true /\
   go_trace (snd r) = []) /\
  (forall args res,
     In (EvStart args res) (trace (snd r)) ->
     out = WriteOk /\
     nth_error args 2 = Some name /\
     In (EvWriteFile name data WriteOk) (before is_Start (trace (snd r)))).
Proof.
  intros r H.
  pose proof (In_existsb is_WriteFile _ _ H eq_refl) as Hb.
  revert H Hb. remember (Run pkg w (init w d)) as r0 eqn:Hr. subst r.
  run_cases Hr; subst r0; read_trace; intros H Hb; try discriminate Hb.
  all: locate H; injection H as <- <- <-.
  all: split; [eexists; reflexivity |].
  all: split; [reflexivity |].
  all: split; [use_answers; reflexivity |].
  all: split; [reflexivity |].
  all: split;
    [ intros Hne; first [congruence | repeat split]
    | intros args res Hin; try (locate Hin; fail);
      locate Hin; injection Hin as <- <-;
      repeat split; found ].
Qed.

End Lifecycle.

Section Reloading.

Variable pkg : Package.
Variable w : World.

Lemma count_app (P : Event -> bool) (a b : list Event) :
  count P (a ++ b) = (count P a + count P b)%nat.
Proof.
  unfold count. rewrite List.filter_app, length_app. reflexivity.
Qed.


(** What one turn of the loop adds to the trace: events the goroutine may
    do; as many success lines as responses; no request without a write
    that succeeded; one such write at most, and none for a rejected
    value. *)
Lemma reload_one_facts (u : string) (s : St) :
  exists body,
    trace (exec (reload_one pkg w u) s) = trace s ++ body /\
    Forall (reload_event pkg w) body /\
    count is_success_log body = count is_response body /\
    (count is_Do body <= count is_ok_write body)%nat /\
    (count is_ok_write body <= if accepted pkg u then 1 else 0)%nat.
Proof.
  unfold accepted. destruct s as [t g dk nw nr ch c].
  remember (exec (reload_one pkg w u) _) as s' eqn:Hr.
  turn_cases Hr; subst s'; cbn [trace]; rewrite <- ?app_assoc; cbn [app];
    eexists; (split; [reflexivity |]);
    (split; [repeat (constructor; [first [exact I | reflexivity] |]); constructor |]);
    vm_compute; repeat split; lia.
Qed.

(** The same for the whole loop. *)
Lemma reload_loop_facts (values : list string) (s : St) :
  exists body,
    trace (exec (reload_loop pkg w values) s) = trace s ++ body /\
    Forall (reload_event pkg w) body /\
    count is_success_log body = count is_response body /\
    (count is_Do body <= count is_ok_write body)%nat /\
    (count is_ok_write body <= length (List.filter (accepted pkg) values))%nat.
Proof.
  revert s. induction values as [| u values IH]; intros s.
  - exists []. cbn [reload_loop exec ret snd]. rewrite app_nil_r.
    split; [reflexivity |]. split; [constructor |]. split; [reflexivity |].
    cbn [count List.filter length]. lia.
  - rewrite exec_reload_loop_cons.
    destruct (reload_one_facts u (set_trace (trace s ++ [EvRecv u]) s))
      as (b1 & Ht1 & Hev1 & Hsucc1 & Hdo1 & Hw1).
    destruct (IH (exec (reload_one pkg w u) (set_trace (trace s ++ [EvRecv u]) s)))
      as (b2 & Ht2 & Hev2 & Hsucc2 & Hdo2 & Hw2).
    exists (EvRecv u :: b1 ++ b2). split; [| split; [| split; [| split]]].
    + rewrite Ht2, Ht1. cbn [set_trace trace]. rewrite <- !app_assoc. reflexivity.
    + constructor; [exact I |]. apply Forall_app. split; assumption.
    + change (EvRecv u :: b1 ++ b2) with ([EvRecv u] ++ b1 ++ b2).
      rewrite !count_app, Hsucc1, Hsucc2. reflexivity.
    + change (EvRecv u :: b1 ++ b2) with ([EvRecv u] ++ b1 ++ b2).
      rewrite !count_app. cbn [count List.filter is_Do is_ok_write length].
      lia.
    + change (EvRecv u :: b1 ++ b2) with ([EvRecv u] ++ b1 ++ b2).
      rewrite !count_app. cbn [count List.filter is_ok_write length].
      destruct (accepted pkg u); cbn [length]; lia.
Qed.


(** Whatever the writes do, the file holds what it held before the loop,
    or the fixed text of a value the loop accepted, or the first bytes of
    such a text. *)
Lemma reload_loop_disk_any (values : list string) (s : St) :
  disk (exec (reload_loop pkg w values) s) !! clashConfPath pkg w =
    disk s !! clashConfPath pkg w \/
  exists u,
    In u values /\ accepted pkg u = true /\
    (disk (exec (reload_loop pkg w values) s) !! clashConfPath pkg w =
       Some (AutoFix pkg u) \/
     exists k e n,
       WriteFile_outcome w k = ShortWrite e n /\
       disk (exec (reload_loop pkg w values) s) !! clashConfPath pkg w =
         Some (prefix_of n (AutoFix pkg u))).
Proof.
  revert s. induction values as [| u values IH]; intros s; [left; reflexivity |].
  rewrite exec_reload_loop_cons.
  destruct (IH (exec (reload_one pkg w u) (set_trace (trace s ++ [EvRecv u]) s)))
    as [Hsame | (u' & Hin & Hacc & Hdisk)].
  - rewrite Hsame, reload_one_disk. cbn [set_trace disk writes].
    unfold accepted.
    destruct (CheckConfig pkg (AutoFix pkg u)) as [cc | err] eqn:Hck;
      [| left; reflexivity].
    destruct (WriteFile_outcome w (writes s)) as [| e | e n] eqn:Hout;
      cbn [write_disk].
    + right. exists u. rewrite Hck, lookup_insert_eq.
      repeat split; [left; reflexivity | left; reflexivity].
    + left. reflexivity.
    + right. exists u. rewrite Hck, lookup_insert_eq.
      repeat split; [left; reflexivity |].
      right. exists (writes s), e, n. split; [exact Hout | reflexivity].
  - right. exists u'. repeat split; [right; exact Hin | exact Hacc | exact Hdisk].
Qed.



(** X6: the reload goroutine only receives, logs, writes the internal
    configuration file, sends requests and reads their answers: it never
    starts or kills the engine, never enables or disables the proxy, and
    never cancels the context. *)
Theorem reload_goroutine_events (d : gmap string string) :
  Forall (reload_event pkg w) (go_trace (snd (Run pkg w (init w d)))).
Proof.
  destruct (Run_go_trace pkg w d) as [Hnil | Hgo].
  - rewrite Hnil. constructor.
  - destruct (Run_go pkg w d Hgo) as (v & rest & s0 & _ & Ht0 & _ & _ & _ & _ & _ & Htr & _).
    rewrite Htr.
    destruct (reload_loop_facts rest s0) as (body & Hbody & Hev & _).
    rewrite Hbody, Ht0. exact Hev.
Qed.

(** X7: the goroutine sends no more requests than it made successful
    writes, and makes no more successful writes than there are accepted
    values after the first; so a rejected value, a failed write and the
    first configuration never lead to a request. *)
Theorem requests_bounded_by_accepted (d : gmap string string) :
  let g := go_trace (snd (Run pkg w (init w d))) in
  (length (sent g) <= count is_ok_write g)%nat /\
  (count is_ok_write g <= length (List.filter (accepted pkg) (tail (updateCh w))))%nat.
Proof.
  intros g. subst g.
  assert (Hsent : forall l, length (sent l) = count is_Do l).
  { induction l as [| e l IH]; [reflexivity |].
    destruct e; cbn [sent count List.filter is_Do length] in *;
      rewrite ?IH; reflexivity. }
  rewrite Hsent.
  destruct (Run_go_trace pkg w d) as [Hnil | Hgo].
  - rewrite Hnil. cbn [count List.filter length]. lia.
  - destruct (Run_go pkg w d Hgo) as (v & rest & s0 & Hch & Ht0 & _ & _ & _ & _ & _ & Htr & _).
    rewrite Htr, Hch. cbn [tail].
    destruct (reload_loop_facts rest s0) as (body & Hbody & _ & _ & Hdo & Hw).
    rewrite Hbody, Ht0. cbn [app]. split; assumption.
Qed.

(** X8: whatever the writes do, after a run that launched the reload
    goroutine the internal configuration file holds the start-up
    configuration, or the fixed text of a later value that the loop
    accepted, or the first bytes of such a text, as many as a write that
    failed after truncating the file had written. *)
Theorem persisted_comes_from_accepted (d : gmap string string) :
  let r := Run pkg w (init w d) in
  In EvGo (trace (snd r)) ->
  exists v rest,
    updateCh w = v :: rest /\
    (disk (snd r) !! clashConfPath pkg w = Some v \/
     exists u,
       In u rest /\ accepted pkg u = true /\
       (disk (snd r) !! clashConfPath pkg w = Some (AutoFix pkg u) \/
        exists k e n,
          WriteFile_outcome w k = ShortWrite e n /\
          disk (snd r) !! clashConfPath pkg w =
            Some (prefix_of n (AutoFix pkg u)))).
Proof.
  intros r H. subst r.
  destruct (Run_go pkg w d H) as (v & rest & s0 & Hch & _ & Hw0 & Hv0 & Hd0 & _ & _ & _ & Hdisk).
  exists v, rest. split; [exact Hch |]. rewrite Hdisk.
  destruct (reload_loop_disk_any rest s0) as [Hsame | Hnew].
  - left. rewrite Hsame, Hd0. apply lookup_insert_eq.
  - right. exact Hnew.
Qed.

(** X9: the goroutine logs the reload as a success once for every response
    [cli.Do] returned, whatever its status, and never otherwise: not when
    the value is rejected, the write fails, the request cannot be built,
    or [cli.Do] returns an error. *)
Theorem success_logged_once_per_response (d : gmap string string) :
  let g := go_trace (snd (Run pkg w (init w d))) in
  count is_success_log g = count is_response g.
Proof.
  intros g. subst g.
  destruct (Run_go_trace pkg w d) as [Hnil | Hgo].
  - rewrite Hnil. reflexivity.
  - destruct (Run_go pkg w d Hgo) as (v & rest & s0 & _ & Ht0 & _ & _ & _ & _ & _ & Htr & _).
    rewrite Htr.
    destruct (reload_loop_facts rest s0) as (body & Hbody & _ & Hsucc & _).
    rewrite Hbody, Ht0. exact Hsucc.
Qed.

End Reloading.

(** ** The further properties at work *)

Lemma fatal_exit_skips_teardown_witness :
  let r := Run pkg_plain w_enable_fails (init w_enable_fails ∅) in
  fst r = Exited 1 /\
  none_of is_teardown (trace (snd r)) = true /\
  In (EvStart (cmd_Args pkg_plain w_enable_fails) None) (trace (snd r)).
Proof.
  cbv zeta.
  assert (H : fst (Run pkg_plain w_enable_fails (init w_enable_fails ∅)) = Exited 1)
    by reflexivity.
  split; [exact H |].
  destruct (fatal_exit_skips_teardown pkg_plain w_enable_fails ∅ 1 H)
    as (Hnone & _ & _ & Hstart).
  split; [exact Hnone |].
  apply (Hstart None). vm_compute. found.
Defined.

Lemma steady_state_blocks_iff_witness :
  (let r := Run pkg_plain w_waiting (init w_waiting ∅) in
   In EvGo (trace (snd r)) /\ fst r = Blocked) /\
  (let r := Run pkg_plain w_no_handle (init w_no_handle ∅) in
   In EvGo (trace (snd r)) /\ fst r = Val tt /\ In EvDone (trace (snd r))).
Proof.
  split; cbv zeta.
  - assert (H : In EvGo (trace (snd (Run pkg_plain w_waiting (init w_waiting ∅)))))
      by (vm_compute; found).
    split; [exact H |].
    destruct (steady_state_blocks_iff pkg_plain w_waiting ∅ H) as (Hiff & _).
    apply Hiff. repeat split; try reflexivity. intros Hp; discriminate Hp.
  - assert (H : In EvGo (trace (snd (Run pkg_plain w_no_handle (init w_no_handle ∅)))))
      by (vm_compute; found).
    split; [exact H |].
    destruct (steady_state_blocks_iff pkg_plain w_no_handle ∅ H) as (Hiff & Hret).
    apply Hret. intros Hb. apply Hiff in Hb as (_ & _ & Hp). apply Hp. reflexivity.
Defined.

Lemma startup_write_gates_start_witness :
  (let r := Run pkg_plain w_quiet (init w_quiet ∅) in
   In (EvWriteFile "/data/clash/config.yaml" "port: 7890" WriteOk) (trace (snd r)) /\
   count is_WriteFile (trace (snd r)) = 1%nat) /\
  (let r := Run pkg_plain w_readonly (init w_readonly ∅) in
   In (EvWriteFile "/data/clash/config.yaml" "port: 7890"
         (OpenErr "read-only file system")) (trace (snd r)) /\
   fst r = Exited 1 /\
   none_of is_bringup (trace (snd r)) = true).
Proof.
  split; cbv zeta.
  - assert (H : In (EvWriteFile "/data/clash/config.yaml" "port: 7890" WriteOk)
                  (trace (snd (Run pkg_plain w_quiet (init w_quiet ∅)))))
      by (vm_compute; found).
    split; [exact H |].
    destruct (startup_write_gates_start pkg_plain w_quiet ∅ _ _ _ H)
      as (_ & _ & _ & Hone & _).
    exact Hone.
  - assert (H : In (EvWriteFile "/data/clash/config.yaml" "port: 7890"
                      (OpenErr "read-only file system"))
                  (trace (snd (Run pkg_plain w_readonly (init w_readonly ∅)))))
      by (vm_compute; found).
    split; [exact H |].
    destruct (startup_write_gates_start pkg_plain w_readonly ∅ _ _ _ H)
      as (_ & _ & _ & _ & Hfail & _).
    destruct Hfail as (Hexit & Hnone & _); [intros Hok; discriminate Hok |].
    split; assumption.
Defined.


Lemma persisted_comes_from_accepted_witness :
  let r := Run pkg_plain w_torn_write (init w_torn_write ∅) in
  In EvGo (trace (snd r)) /\
  disk (snd r) !! clashConfPath pkg_plain w_torn_write = Some "port" /\
  exists v rest,
    updateCh w_torn_write = v :: rest /\
    (disk (snd r) !! clashConfPath pkg_plain w_torn_write = Some v \/
     exists u,
       In u rest /\ accepted pkg_plain u = true /\
       (disk (snd r) !! clashConfPath pkg_plain w_torn_write
          = Some (AutoFix pkg_plain u) \/
        exists k e n,
          WriteFile_outcome w_torn_write k = ShortWrite e n /\
          disk (snd r) !! clashConfPath pkg_plain w_torn_write
            = Some (prefix_of n (AutoFix pkg_plain u)))).
Proof.
  cbv zeta.
  assert (H : In EvGo (trace (snd (Run pkg_plain w_torn_write (init w_torn_write ∅)))))
    by (vm_compute; found).
  split; [exact H |]. split; [vm_compute; reflexivity |].
  exact (persisted_comes_from_accepted pkg_plain w_torn_write ∅ H).
Defined.
